(** * hover: packaging of a desktop application as a snap or a deb

    A shallow embedding of [cmd/packaging.go].  The Go functions become
    programs of a small state-and-exit monad over a model of the process
    environment (file system, search path, current user, console), and
    the properties of the packaging life cycle are proved about them. *)

From Stdlib Require Import String Ascii List Bool Arith NArith ZArith Lia.
Import ListNotations.
Open Scope string_scope.

(** ** Go's [strings] package, on byte strings *)

Module strings.

(** [replace_from old new skip s]: scan [s] from left to right; [skip]
    counts the bytes of a matched occurrence that are still to be
    dropped, so occurrences do not overlap. *)
Fixpoint replace_from (old new : string) (skip : nat) (s : string) : string :=
  match s with
  | EmptyString => EmptyString
  | String c s' =>
      match skip with
      | S k => replace_from old new k s'
      | O =>
          if prefix old s
          then new ++ replace_from old new (pred (String.length old)) s'
          else String c (replace_from old new 0 s')
      end
  end.

(** With an empty pattern Go puts [new] in front of every character and
    at the end; that case is written bytewise. *)
Fixpoint interleave (new s : string) : string :=
  match s with
  | EmptyString => new
  | String c s' => new ++ String c (interleave new s')
  end.

Definition ReplaceAll (s old new : string) : string :=
  match old with
  | EmptyString => interleave new s
  | String _ _ => replace_from old new 0 s
  end.

Fixpoint split_from (sep : string) (skip : nat) (cur s : string) : list string :=
  match s with
  | EmptyString => [cur]
  | String c s' =>
      match skip with
      | S k => split_from sep k cur s'
      | O =>
          if prefix sep s
          then cur :: split_from sep (pred (String.length sep)) "" s'
          else split_from sep 0 (cur ++ String c "") s'
      end
  end.

Definition Split (s sep : string) : list string :=
  match sep with
  | EmptyString => map (fun c => String c "") (list_ascii_of_string s)
  | String _ _ => split_from sep 0 "" s
  end.

Definition Join (elems : list string) (sep : string) : string :=
  String.concat sep elems.

Fixpoint Contains (s substr : string) : bool :=
  prefix substr s ||
  match s with
  | EmptyString => false
  | String _ s' => Contains s' substr
  end.

End strings.

(** ** Go's [path/filepath] package, for a Unix host *)

Module filepath.

(** The stack holds the components kept so far, innermost first. *)
Fixpoint clean_stack (rooted : bool) (stack cs : list string) : list string :=
  match cs with
  | [] => rev stack
  | c :: cs' =>
      if (c =? "") || (c =? ".") then clean_stack rooted stack cs'
      else if c =? ".." then
        match stack with
        | top :: rest =>
            if top =? ".." then clean_stack rooted (c :: stack) cs'
            else clean_stack rooted rest cs'
        | [] =>
            if rooted then clean_stack rooted [] cs'
            else clean_stack rooted [c] cs'
        end
      else clean_stack rooted (c :: stack) cs'
  end.

Definition IsAbs (p : string) : bool := prefix "/" p.

(** The components of the cleaned path. *)
Definition components (p : string) : list string :=
  clean_stack (IsAbs p) [] (strings.Split p "/").

Definition Clean (p : string) : string :=
  match components p, IsAbs p with
  | [], true => "/"
  | [], false => "."
  | cs, true => "/" ++ String.concat "/" cs
  | cs, false => String.concat "/" cs
  end.

(** [Join] drops the leading empty elements, joins the rest with the
    separator and cleans the result; no non-empty element gives [""]. *)
Fixpoint Join (elem : list string) : string :=
  match elem with
  | [] => ""
  | e :: rest =>
      if e =? "" then Join rest else Clean (String.concat "/" elem)
  end.

End filepath.

(** ** [removeDashesAndUnderscores] *)

Definition removeDashesAndUnderscores (projectName : string) : string :=
  strings.ReplaceAll (strings.ReplaceAll projectName "-" "") "_" "".

(** ** The process environment

    The operating system is modelled as far as the packaging commands
    observe it: a file system keyed by the components of absolute clean
    paths, the executable search path, the current user, the console,
    and the record of every system call made with its answer. *)

Inductive error : Type :=
| ErrNotExist                 (* the only error [os.IsNotExist] accepts *)
| ErrExist
| ErrPermission
| ErrNotDir
| ErrIsDir
| ErrNotFound                 (* [exec.ErrNotFound] *)
| ErrOther (msg : string).

Definition error_text (e : error) : string :=
  match e with
  | ErrNotExist => "no such file or directory"
  | ErrExist => "file exists"
  | ErrPermission => "permission denied"
  | ErrNotDir => "not a directory"
  | ErrIsDir => "is a directory"
  | ErrNotFound => "executable file not found in $PATH"
  | ErrOther msg => msg
  end.

(** What goes wrong outside the model: never "does not exist", which
    the file system itself decides. *)
Inductive fault : Type :=
| Denied
| Broken (msg : string).

Definition fault_error (x : fault) : error :=
  match x with
  | Denied => ErrPermission
  | Broken msg => ErrOther msg
  end.

(** The answer of a call: Go's [(value, err)] pair. *)
Inductive answer : Type :=
| Ok (v : string)
| Fail (e : error).

Definition failed (a : answer) : bool :=
  match a with Ok _ => false | Fail _ => true end.

(** [os.IsNotExist(err)], where a nil [err] is the answer [Ok]. *)
Definition IsNotExist (a : answer) : bool :=
  match a with
  | Fail ErrNotExist => true
  | _ => false
  end.

Inductive node : Type :=
| Dir (perm : N)
| File (perm : N) (content : string).

Definition Key : Type := list string.
Definition FS : Type := Key -> option node.

Inductive Call : Type :=
| Getwd
| Stat (name : string)
| MkdirAll (path : string) (perm : N)
| Create (name : string)
| WriteString (name : string) (s : string)
| Close (name : string)
| Chmod (name : string) (mode : N)
| TempDir (dir : string) (pfx : string)
| Copy (src dest : string)
| LookPath (file : string)
| Run (bin : string) (args : list string) (dir : string)
| Rename (oldpath newpath : string)
| RemoveAll (path : string)
| UserCurrent.

Definition Event : Type := (Call * answer)%type.

Record PubSpec : Type := mkPubSpec {
  Name : string;
  Version : string;
  Author : string;
  Description : string
}.

Record World : Type := mkWorld {
  GOOS : string;
  GOARCH : string;
  (** declared in another file of the package *)
  buildPath : string;
  outputDirectoryPath : string -> string;
  pubspec : option PubSpec;
  (** the operating system *)
  cwd : Key;
  tmpdir : string;
  random : list string;
  search_path : list (string * string);
  current_user : option string;
  programs : string -> list string -> Key -> FS -> option FS;
  faults : nat -> Call -> option fault;
  fs : FS;
  (** what the run has done so far *)
  console : list string;
  trace : list Event
}.

Definition key_eqb (a b : Key) : bool :=
  if list_eq_dec string_dec a b then true else false.

Fixpoint strip_prefix (k q : Key) : option Key :=
  match k, q with
  | [], _ => Some q
  | a :: k', b :: q' => if a =? b then strip_prefix k' q' else None
  | _ :: _, [] => None
  end.

Definition under (k q : Key) : bool :=
  match strip_prefix k q with Some _ => true | None => false end.

Definition is_file (f : FS) (k : Key) : bool :=
  match f k with Some (File _ _) => true | _ => false end.

Definition is_dir (f : FS) (k : Key) : bool :=
  match k, f k with
  | [], _ => true
  | _, Some (Dir _) => true
  | _, _ => false
  end.

(** Is [pre], or [pre] extended by a prefix of [k], a regular file? *)
Fixpoint file_on_path (f : FS) (pre k : Key) : bool :=
  is_file f pre ||
  match k with
  | [] => false
  | c :: k' => file_on_path f (pre ++ [c])%list k'
  end.

Definition parent (k : Key) : Key := removelast k.

Definition put (f : FS) (k : Key) (n : node) : FS :=
  fun q => if key_eqb q k then Some n else f q.

(** The absolute path of a key. *)
Definition path_of (k : Key) : string := "/" ++ String.concat "/" k.

(** The key a path names: relative paths start at the working directory. *)
Definition key_of (wd : Key) (p : string) : Key :=
  filepath.components (if filepath.IsAbs p then p else path_of wd ++ "/" ++ p).

(** *** The file system calls *)

Definition fs_stat (f : FS) (k : Key) : answer :=
  if file_on_path f [] (parent k) then Fail ErrNotDir
  else match k, f k with
       | [], _ => Ok ""
       | _, Some _ => Ok ""
       | _, None => Fail ErrNotExist
       end.

(** Every missing directory on the way to [k], and [k] itself, is made. *)
Definition fs_mkdirall (f : FS) (k : Key) (perm : N) : answer * FS :=
  if file_on_path f [] k then (Fail ErrNotDir, f)
  else (Ok "",
        fun q =>
          match f q with
          | Some n => Some n
          | None =>
              if under q k && negb (key_eqb q []) then Some (Dir perm) else None
          end).

(** [os.Create]: the file is made with mode 0666, or emptied if it is there. *)
Definition fs_create (f : FS) (k : Key) : answer * FS :=
  if file_on_path f [] (parent k) then (Fail ErrNotDir, f)
  else if negb (is_dir f (parent k)) then (Fail ErrNotExist, f)
  else match k, f k with
       | [], _ => (Fail ErrIsDir, f)
       | _, Some (Dir _) => (Fail ErrIsDir, f)
       | _, Some (File m _) => (Ok "", put f k (File m ""))
       | _, None => (Ok "", put f k (File 438 ""))
       end.

(** An open file is named by its path; a write appends to it. *)
Definition fs_write (f : FS) (k : Key) (s : string) : answer * FS :=
  match f k with
  | Some (File m c) => (Ok "", put f k (File m (c ++ s)))
  | _ => (Fail (ErrOther "bad file descriptor"), f)
  end.

Definition fs_chmod (f : FS) (k : Key) (mode : N) : answer * FS :=
  match k, f k with
  | _ :: _, Some (File _ c) => (Ok "", put f k (File mode c))
  | _ :: _, Some (Dir _) => (Ok "", put f k (Dir mode))
  | [], _ => (Fail ErrPermission, f)
  | _, None => (Fail ErrNotExist, f)
  end.

(** [ioutil.TempDir] draws names until one is free. *)
Fixpoint fresh_name (f : FS) (wd : Key) (base pfx : string) (rs : list string)
  : option (string * list string) :=
  match rs with
  | [] => None
  | r :: rs' =>
      let p := filepath.Join [base; pfx ++ r] in
      match f (key_of wd p) with
      | Some _ => fresh_name f wd base pfx rs'
      | None => Some (p, rs')
      end
  end.

Definition fs_tempdir (f : FS) (wd : Key) (base pfx : string) (rs : list string)
  : answer * FS * list string :=
  match fresh_name f wd base pfx rs with
  | None => (Fail ErrExist, f, [])
  | Some (p, rs') =>
      let k := key_of wd p in
      if file_on_path f [] (parent k) then (Fail ErrNotDir, f, rs')
      else if is_dir f (parent k) then (Ok p, put f k (Dir 448), rs')
      else (Fail ErrNotExist, f, rs')
  end.

(** [copy.Copy]: a file is copied to [kd]; a directory is merged into
    [kd], the entries of the source replacing those of the same name. *)
Definition fs_copy (f : FS) (ks kd : Key) : answer * FS :=
  match ks, f ks with
  | _ :: _, None => (Fail ErrNotExist, f)
  | _ :: _, Some (File m c) =>
      match fs_mkdirall f (parent kd) 493 with
      | (Fail e, _) => (Fail e, f)
      | (Ok _, f1) =>
          if is_dir f1 kd then (Fail ErrIsDir, f1)
          else (Ok "", put f1 kd (File m c))
      end
  | _, _ =>
      match fs_mkdirall f kd 493 with
      | (Fail e, _) => (Fail e, f)
      | (Ok _, f1) =>
          (Ok "",
           fun q =>
             match strip_prefix kd q with
             | Some (c :: rest) =>
                 match f (ks ++ c :: rest)%list with
                 | Some n => Some n
                 | None => f1 q
                 end
             | _ => f1 q
             end)
      end
  end.

(** [os.Rename]: the entry and all below it move from [ks] to [kd]. *)
Definition fs_rename (f : FS) (ks kd : Key) : answer * FS :=
  match ks, f ks with
  | [], _ => (Fail (ErrOther "device or resource busy"), f)
  | _, None => (Fail ErrNotExist, f)
  | _, Some n =>
      if file_on_path f [] (parent kd) then (Fail ErrNotDir, f)
      else if negb (is_dir f (parent kd)) then (Fail ErrNotExist, f)
      else if under ks kd && negb (key_eqb ks kd)
      then (Fail (ErrOther "invalid argument"), f)
      else
        match n, kd, f kd with
        | File _ _, [], _ => (Fail ErrIsDir, f)
        | File _ _, _, Some (Dir _) => (Fail ErrIsDir, f)
        | Dir _, _, Some (File _ _) => (Fail ErrNotDir, f)
        | _, _, _ =>
            (Ok "",
             fun q =>
               match strip_prefix kd q with
               | Some rest => f (ks ++ rest)%list
               | None => if under ks q then None else f q
               end)
        end
  end.

Definition fs_removeall (f : FS) (k : Key) : FS :=
  fun q => if under k q then None else f q.

Fixpoint assoc (l : list (string * string)) (x : string) : option string :=
  match l with
  | [] => None
  | (a, b) :: l' => if a =? x then Some b else assoc l' x
  end.

(** One call against the world: the answer, the file system and the
    random names left. *)
Definition kernel (w : World) (c : Call) : answer * FS * list string :=
  let f := fs w in
  let k := key_of (cwd w) in
  let keep (a : answer) := (a, f, random w) in
  let change (r : answer * FS) := (fst r, snd r, random w) in
  match c with
  | Getwd => keep (Ok (path_of (cwd w)))
  | Stat p => keep (fs_stat f (k p))
  | MkdirAll p perm => change (fs_mkdirall f (k p) perm)
  | Create p => change (fs_create f (k p))
  | WriteString p s => change (fs_write f (k p) s)
  | Close _ => keep (Ok "")
  | Chmod p mode => change (fs_chmod f (k p) mode)
  | TempDir dir pfx =>
      fs_tempdir f (cwd w) (if dir =? "" then tmpdir w else dir) pfx (random w)
  | Copy src dest => change (fs_copy f (k src) (k dest))
  | LookPath file =>
      keep (match assoc (search_path w) file with
            | Some p => Ok p
            | None => Fail ErrNotFound
            end)
  | Run bin args dir =>
      match programs w bin args (k dir) f with
      | Some f' => (Ok "", f', random w)
      | None => keep (Fail (ErrOther "exit status 1"))
      end
  | Rename src dest => change (fs_rename f (k src) (k dest))
  | RemoveAll p => (Ok "", fs_removeall f (k p), random w)
  | UserCurrent =>
      keep (match current_user w with
            | Some u => Ok u
            | None => Fail (ErrOther "user: Current not implemented")
            end)
  end.

(** ** Programs: state, and exit *)

Inductive outcome (A : Type) : Type :=
| Ret (a : A)
| Exit (code : Z).
Arguments Ret {A} a.
Arguments Exit {A} code.

Definition M (A : Type) : Type := World -> outcome A * World.

Definition ret {A : Type} (a : A) : M A := fun w => (Ret a, w).

Definition bind {A B : Type} (m : M A) (k : A -> M B) : M B :=
  fun w =>
    match m w with
    | (Ret a, w') => k a w'
    | (Exit c, w') => (Exit c, w')
    end.

Declare Scope prog_scope.
Delimit Scope prog_scope with prog.
Notation "x <- m ;; k" := (bind m (fun x => k))
  (at level 61, m at next level, right associativity) : prog_scope.
Notation "m ;; k" := (bind m (fun _ => k))
  (at level 61, right associativity) : prog_scope.
Open Scope prog_scope.

Definition ask {A : Type} (field : World -> A) : M A :=
  fun w => (Ret (field w), w).

Definition os_Exit {A : Type} (code : Z) : M A := fun w => (Exit code, w).

Definition set_console (w : World) (c : list string) : World :=
  mkWorld (GOOS w) (GOARCH w) (buildPath w) (outputDirectoryPath w) (pubspec w)
          (cwd w) (tmpdir w) (random w) (search_path w) (current_user w)
          (programs w) (faults w) (fs w) c (trace w).

Definition set_os (w : World) (f : FS) (r : list string) (t : list Event) : World :=
  mkWorld (GOOS w) (GOARCH w) (buildPath w) (outputDirectoryPath w) (pubspec w)
          (cwd w) (tmpdir w) r (search_path w) (current_user w)
          (programs w) (faults w) f (console w) t.

(** The faults of the world say which call fails when, for a reason the
    model of the file system does not know (permissions, a failing disk);
    a failed call changes nothing.  Otherwise the kernel answers. *)
Definition reply (w : World) (c : Call) : answer * FS * list string :=
  match faults w (List.length (trace w)) c with
  | Some x => (Fail (fault_error x), fs w, random w)
  | None => kernel w c
  end.

(** A system call; the call and its answer are recorded. *)
Definition sys (c : Call) : M answer :=
  fun w =>
    let r := reply w c in
    (Ret (fst (fst r)),
     set_os w (snd (fst r)) (snd r) (trace w ++ [(c, fst (fst r))])%list).

Definition nl : string := String (ascii_of_nat 10) "".

Definition fmt_Printf (s : string) : M unit :=
  fun w => (Ret tt, set_console w (console w ++ [s])%list).

Definition fmt_Println (s : string) : M unit := fmt_Printf (s ++ nl).

(** [if err != nil { fmt.Printf(msg, err); os.Exit(1) }] *)
Definition check (a : answer) (msg : error -> string) : M string :=
  match a with
  | Ok v => ret v
  | Fail err => fmt_Printf (msg err) ;; os_Exit 1
  end.

Fixpoint forEach {A : Type} (l : list A) (body : A -> M unit) : M unit :=
  match l with
  | [] => ret tt
  | x :: l' => body x ;; forEach l' body
  end.

Definition filepath_Abs (p : string) : M answer :=
  if filepath.IsAbs p then ret (Ok (filepath.Clean p))
  else
    wd <- sys Getwd ;;
    match wd with
    | Ok d => ret (Ok (filepath.Join [d; p]))
    | Fail e => ret (Fail e)
    end.

(** ** [cmd/packaging.go] *)

(** Modelled from the spec: [getPubSpec] is declared in another file;
    the project metadata is loaded from an external source, and the
    command fails fatally when it cannot be loaded. *)
Definition getPubSpec : M PubSpec :=
  fun w =>
    match pubspec w with
    | Some p => (Ret p, w)
    | None => (Exit 1, w)
    end.

Definition packagingPath (w : World) : string :=
  filepath.Join [buildPath w; "packaging"].

Definition linuxPackagingDependencies : list string :=
  ["libx11-6"; "libxrandr2"; "libxcursor1"; "libxinerama1"].

Definition packagingFormatPath (packagingFormat : string) : M string :=
  pp <- ask packagingPath ;;
  r <- filepath_Abs (filepath.Join [pp; packagingFormat]) ;;
  check r (fun err =>
    "hover: Failed to resolve absolute path for " ++ packagingFormat
    ++ " directory: " ++ error_text err ++ nl).

Definition already_exists_message (packagingFormat : string) : string :=
  "hover: A file or directory named `" ++ packagingFormat
  ++ "` already exists. Cannot continue packaging init for "
  ++ packagingFormat ++ "." ++ nl.

Definition createPackagingFormatDirectory (packagingFormat : string) : M unit :=
  p <- packagingFormatPath packagingFormat ;;
  err <- sys (Stat p) ;;
  (if negb (IsNotExist err) then
     fmt_Printf (already_exists_message packagingFormat) ;; os_Exit 1
   else ret tt) ;;
  p <- packagingFormatPath packagingFormat ;;
  err <- sys (MkdirAll p 509) ;;
  match err with
  | Fail e =>
      p <- packagingFormatPath packagingFormat ;;
      fmt_Printf ("hover: Failed to create " ++ packagingFormat ++ " directory "
                  ++ p ++ ": " ++ error_text e ++ nl) ;;
      os_Exit 1
  | Ok _ => ret tt
  end.

Definition not_initialized_message (packagingFormat : string) : string :=
  "hover: " ++ packagingFormat
  ++ " is not initialized for packaging. Please run `hover init-packaging "
  ++ packagingFormat ++ "` first." ++ nl.

Definition assertPackagingFormatInitialized (packagingFormat : string) : M unit :=
  p <- packagingFormatPath packagingFormat ;;
  err <- sys (Stat p) ;;
  if IsNotExist err then
    fmt_Printf (not_initialized_message packagingFormat) ;; os_Exit 1
  else ret tt.

Definition assertCorrectOS (packagingFormat : string) : M unit :=
  goos <- ask GOOS ;;
  if negb (goos =? nth 0 (strings.Split packagingFormat "-") "") then
    fmt_Printf ("hover: " ++ packagingFormat ++ " only works on "
                ++ nth 0 (strings.Split packagingFormat "-") "" ++ nl) ;;
    os_Exit 1
  else ret tt.

Definition printInitFinished (packagingFormat : string) : M unit :=
  fmt_Printf ("hover: go/packaging/" ++ packagingFormat
              ++ " has been created. You can modify the configuration files and add it to git."
              ++ nl) ;;
  fmt_Printf ("hover: You now can package the "
              ++ nth 0 (strings.Split packagingFormat "-") ""
              ++ " using `hover build " ++ packagingFormat ++ "`" ++ nl).

Definition getTemporaryBuildDirectory (projectName packagingFormat : string)
  : M string :=
  r <- sys (TempDir "" ("hover-build-" ++ projectName ++ "-" ++ packagingFormat)) ;;
  check r (fun err =>
    "hover: Couldn't get temporary build directory: " ++ error_text err ++ nl).

(** [for _, line := range content { file.WriteString(line + "\n") ... }] *)
Definition writeLines (file : string) (content : list string)
    (msg : error -> string) : M unit :=
  forEach content (fun line =>
    r <- sys (WriteString file (line ++ nl)) ;;
    check r msg ;;
    ret tt).

Definition initLinuxSnap (projectName : string) : M unit :=
  let packagingFormat := "linux-snap" in
  assertCorrectOS packagingFormat ;;
  createPackagingFormatDirectory packagingFormat ;;
  snapDirectoryPath <- packagingFormatPath packagingFormat ;;

  r <- filepath_Abs (filepath.Join [snapDirectoryPath; "snap"; "local"]) ;;
  snapLocalDirectoryPath <- check r (fun err =>
    "hover: Failed to resolve absolute path for snap local directory: "
    ++ error_text err ++ nl) ;;
  r <- sys (MkdirAll snapLocalDirectoryPath 509) ;;
  check r (fun err =>
    "hover: Failed to create snap local directory " ++ snapDirectoryPath
    ++ ": " ++ error_text err ++ nl) ;;

  r <- filepath_Abs (filepath.Join [snapDirectoryPath; "snap"; "snapcraft.yaml"]) ;;
  snapcraftFilePath <- check r (fun err =>
    "hover: Failed to resolve absolute path for snapcraft.yaml file "
    ++ ": " ++ error_text err ++ nl) ;;

  r <- sys (Create snapcraftFilePath) ;;
  check r (fun err =>
    "hover: Failed to create snapcraft.yaml file " ++ snapcraftFilePath
    ++ ": " ++ error_text err ++ nl) ;;
  let snapcraftFile := snapcraftFilePath in
  ps1 <- getPubSpec ;;
  ps2 <- getPubSpec ;;
  ps3 <- getPubSpec ;;
  let snapcraftFileContent :=
    [ "name: " ++ removeDashesAndUnderscores projectName;
      "base: core18";
      "version: '" ++ Version ps1 ++ "'";
      "summary: " ++ Description ps2;
      "description: |";
      "  " ++ Description ps3;
      "confinement: devmode";
      "grade: devel";
      "apps:";
      "  " ++ removeDashesAndUnderscores projectName ++ ":";
      "    command: " ++ projectName;
      "    desktop: local/" ++ projectName ++ ".desktop";
      "parts:";
      "  desktop:";
      "    plugin: dump";
      "    source: snap";
      "  assets:";
      "    plugin: dump";
      "    source: assets";
      "  app:";
      "    plugin: dump";
      "    source: build";
      "    stage-packages:" ] in
  let snapcraftFileContent :=
    fold_left (fun content dependency =>
                 (content ++ [("      - " ++ dependency)%string])%list)
              linuxPackagingDependencies snapcraftFileContent in

  writeLines snapcraftFile snapcraftFileContent (fun err =>
    "hover: Could not write snapcraft.yaml: " ++ error_text err ++ nl) ;;
  r <- sys (Close snapcraftFile) ;;
  check r (fun err =>
    "hover: Could not close snapcraft.yaml: " ++ error_text err ++ nl) ;;

  r <- filepath_Abs (filepath.Join [snapLocalDirectoryPath; projectName ++ ".desktop"]) ;;
  desktopFilePath <- check r (fun err =>
    "hover: Failed to resolve absolute path for desktop file "
    ++ ": " ++ error_text err ++ nl) ;;
  r <- sys (Create desktopFilePath) ;;
  check r (fun err =>
    "hover: Failed to create desktop file " ++ desktopFilePath
    ++ ": " ++ error_text err ++ nl) ;;
  let desktopFile := desktopFilePath in
  ps <- getPubSpec ;;
  let desktopFileContent :=
    [ "[Desktop Entry]";
      "Encoding=UTF-8";
      "Version=" ++ Version ps;
      "Type=Application";
      "Terminal=false";
      "Exec=/" ++ projectName;
      "Name=" ++ projectName;
      "Icon=/icon.png" ] in

  writeLines desktopFile desktopFileContent (fun err =>
    "hover: Could not write " ++ projectName ++ ".desktop: "
    ++ error_text err ++ nl) ;;
  r <- sys (Close desktopFile) ;;
  check r (fun err =>
    "hover: Could not close " ++ projectName ++ ".desktop: "
    ++ error_text err ++ nl) ;;

  printInitFinished packagingFormat.

Definition snapcraft_missing_message : string :=
  "hover: Failed to lookup `snapcraft` executable. Please install snapcraft."
  ++ nl ++ "https://tutorials.ubuntu.com/tutorial/create-your-first-snap#1".

Definition buildLinuxSnap (projectName : string) : M unit :=
  let packagingFormat := "linux-snap" in
  assertCorrectOS packagingFormat ;;
  r <- sys (LookPath "snapcraft") ;;
  snapcraftBin <-
    match r with
    | Fail _ => fmt_Println snapcraft_missing_message ;; os_Exit 1
    | Ok bin => ret bin
    end ;;
  tmpPath <- getTemporaryBuildDirectory projectName packagingFormat ;;
  fmt_Printf ("hover: Packaging snap in " ++ tmpPath ++ nl) ;;

  bp <- ask buildPath ;;
  r <- sys (Copy (filepath.Join [bp; "assets"]) (filepath.Join [tmpPath; "assets"])) ;;
  check r (fun err =>
    "hover: Could not copy assets folder: " ++ error_text err ++ nl) ;;
  out <- ask outputDirectoryPath ;;
  r <- sys (Copy (out "linux") (filepath.Join [tmpPath; "build"])) ;;
  check r (fun err =>
    "hover: Could not copy build folder: " ++ error_text err ++ nl) ;;
  cfg <- packagingFormatPath packagingFormat ;;
  r <- sys (Copy cfg (filepath.Join [tmpPath])) ;;
  check r (fun err =>
    "hover: Could not copy packaging configuration folder: "
    ++ error_text err ++ nl) ;;

  r <- sys (Run snapcraftBin [] tmpPath) ;;
  check r (fun err =>
    "hover: Failed to package snap: " ++ error_text err ++ nl) ;;
  out <- ask outputDirectoryPath ;;
  goarch <- ask GOARCH ;;
  let outputFilePath :=
    filepath.Join [out "linux-snap";
                   removeDashesAndUnderscores projectName ++ "_" ++ goarch ++ ".snap"] in
  ps <- getPubSpec ;;
  r <- sys (Rename
              (filepath.Join [tmpPath;
                              removeDashesAndUnderscores projectName ++ "_"
                              ++ Version ps ++ "_" ++ goarch ++ ".snap"])
              outputFilePath) ;;
  check r (fun err =>
    "hover: Could not move snap file: " ++ error_text err ++ nl) ;;
  r <- sys (RemoveAll tmpPath) ;;
  check r (fun err =>
    "hover: Could not remove packaging configuration folder: "
    ++ error_text err ++ nl) ;;
  ret tt.

Definition missing_author_message : string :=
  "hover: Missing author field in pubspec.yaml".

Definition initLinuxDeb (projectName : string) : M unit :=
  let packagingFormat := "linux-deb" in
  assertCorrectOS packagingFormat ;;
  ps <- getPubSpec ;;
  let author := Author ps in
  author <-
    (if author =? "" then
       fmt_Println missing_author_message ;;
       r <- sys UserCurrent ;;
       u <- check r (fun err =>
         "hover: Couldn't get current user: " ++ error_text err ++ nl) ;;
       let author := u in
       fmt_Printf ("hover: Using this username from system instead: "
                   ++ author ++ nl) ;;
       ret author
     else ret author) ;;
  createPackagingFormatDirectory packagingFormat ;;
  debDirectoryPath <- packagingFormatPath packagingFormat ;;
  r <- filepath_Abs (filepath.Join [debDirectoryPath; "DEBIAN"]) ;;
  debDebianDirectoryPath <- check r (fun err =>
    "hover: Failed to resolve absolute path for DEBIAN directory: "
    ++ error_text err ++ nl) ;;
  r <- sys (MkdirAll debDebianDirectoryPath 509) ;;
  check r (fun err =>
    "hover: Failed to create DEBIAN directory " ++ debDebianDirectoryPath
    ++ ": " ++ error_text err ++ nl) ;;

  r <- filepath_Abs (filepath.Join [debDirectoryPath; "usr"; "bin"]) ;;
  binDirectoryPath <- check r (fun err =>
    "hover: Failed to resolve absolute path for bin directory: "
    ++ error_text err ++ nl) ;;
  r <- sys (MkdirAll binDirectoryPath 509) ;;
  check r (fun err =>
    "hover: Failed to create bin directory " ++ binDirectoryPath
    ++ ": " ++ error_text err ++ nl) ;;
  r <- filepath_Abs (filepath.Join [debDirectoryPath; "usr"; "share"; "applications"]) ;;
  applicationsDirectoryPath <- check r (fun err =>
    "hover: Failed to resolve absolute path for applications directory: "
    ++ error_text err ++ nl) ;;
  r <- sys (MkdirAll applicationsDirectoryPath 509) ;;
  check r (fun err =>
    "hover: Failed to create applications directory " ++ applicationsDirectoryPath
    ++ ": " ++ error_text err ++ nl) ;;

  r <- filepath_Abs (filepath.Join [debDebianDirectoryPath; "control"]) ;;
  controlFilePath <- check r (fun err =>
    "hover: Failed to resolve absolute path for control file "
    ++ ": " ++ error_text err ++ nl) ;;

  r <- sys (Create controlFilePath) ;;
  check r (fun err =>
    "hover: Failed to create control file " ++ controlFilePath
    ++ ": " ++ error_text err ++ nl) ;;
  let controlFile := controlFilePath in
  goarch <- ask GOARCH ;;
  ps1 <- getPubSpec ;;
  ps2 <- getPubSpec ;;
  ps3 <- getPubSpec ;;
  let controlFileContent :=
    [ "Package: " ++ removeDashesAndUnderscores projectName;
      "Architecture: " ++ goarch;
      "Maintainer: @" ++ Author ps1;
      "Priority: optional";
      "Version: " ++ Version ps2;
      "Description: " ++ Description ps3;
      "Depends: " ++ strings.Join linuxPackagingDependencies "," ] in

  writeLines controlFile controlFileContent (fun err =>
    "hover: Could not write control file: " ++ error_text err ++ nl) ;;
  r <- sys (Close controlFile) ;;
  check r (fun err =>
    "hover: Could not close control file: " ++ error_text err ++ nl) ;;

  r <- filepath_Abs (filepath.Join [binDirectoryPath;
                                    removeDashesAndUnderscores projectName]) ;;
  binFilePath <- check r (fun err =>
    "hover: Failed to resolve absolute path for bin file "
    ++ ": " ++ error_text err ++ nl) ;;

  r <- sys (Create binFilePath) ;;
  check r (fun err =>
    "hover: Failed to create bin file " ++ controlFilePath
    ++ ": " ++ error_text err ++ nl) ;;
  let binFile := binFilePath in
  let binFileContent :=
    [ "#!/bin/sh";
      "/usr/lib/" ++ projectName ++ "/" ++ projectName ] in
  writeLines binFile binFileContent (fun err =>
    "hover: Could not write bin file: " ++ error_text err ++ nl) ;;
  r <- sys (Close binFile) ;;
  check r (fun err =>
    "hover: Could not close bin file: " ++ error_text err ++ nl) ;;
  r <- sys (Chmod binFilePath 511) ;;
  check r (fun err =>
    "hover: Failed to change file permissions for bin file: "
    ++ error_text err ++ nl) ;;

  r <- filepath_Abs (filepath.Join [applicationsDirectoryPath;
                                    projectName ++ ".desktop"]) ;;
  desktopFilePath <- check r (fun err =>
    "hover: Failed to resolve absolute path for desktop file "
    ++ ": " ++ error_text err ++ nl) ;;
  r <- sys (Create desktopFilePath) ;;
  check r (fun err =>
    "hover: Failed to create desktop file " ++ desktopFilePath
    ++ ": " ++ error_text err ++ nl) ;;
  let desktopFile := desktopFilePath in
  ps <- getPubSpec ;;
  let desktopFileContent :=
    [ "[Desktop Entry]";
      "Encoding=UTF-8";
      "Version=" ++ Version ps;
      "Type=Application";
      "Terminal=false";
      "Exec=/usr/bin/" ++ projectName;
      "Name=" ++ projectName;
      "Icon=/usr/lib/" ++ projectName ++ "/assets/icon.png" ] in
  writeLines desktopFile desktopFileContent (fun err =>
    "hover: Could not write " ++ projectName ++ ".desktop file: "
    ++ error_text err ++ nl) ;;
  r <- sys (Close desktopFile) ;;
  check r (fun err =>
    "hover: Could not close " ++ projectName ++ ".desktop file: "
    ++ error_text err ++ nl) ;;

  printInitFinished packagingFormat.

Definition dpkg_missing_message : string :=
  "hover: Failed to lookup `dpkg-deb` executable. Please install dpkg-deb.".

Definition buildLinuxDeb (projectName : string) : M unit :=
  let packagingFormat := "linux-deb" in
  assertCorrectOS packagingFormat ;;
  r <- sys (LookPath "dpkg-deb") ;;
  dpkgDebBin <-
    match r with
    | Fail _ => fmt_Println dpkg_missing_message ;; os_Exit 1
    | Ok bin => ret bin
    end ;;
  tmpPath <- getTemporaryBuildDirectory projectName packagingFormat ;;
  fmt_Printf ("hover: Packaging deb in " ++ tmpPath ++ nl) ;;

  r <- filepath_Abs (filepath.Join [tmpPath; "usr"; "lib"]) ;;
  libDirectoryPath <- check r (fun err =>
    "hover: Failed to resolve absolute path for bin directory: "
    ++ error_text err ++ nl) ;;
  out <- ask outputDirectoryPath ;;
  r <- sys (Copy (out "linux") (filepath.Join [libDirectoryPath; projectName])) ;;
  check r (fun err =>
    "hover: Could not copy build folder: " ++ error_text err ++ nl) ;;
  cfg <- packagingFormatPath packagingFormat ;;
  r <- sys (Copy cfg (filepath.Join [tmpPath])) ;;
  check r (fun err =>
    "hover: Could not copy packaging configuration folder: "
    ++ error_text err ++ nl) ;;
  goarch <- ask GOARCH ;;
  let outputFileName :=
    removeDashesAndUnderscores projectName ++ "_" ++ goarch ++ ".deb" in
  out <- ask outputDirectoryPath ;;
  let outputFilePath := filepath.Join [out "linux-deb"; outputFileName] in

  r <- sys (Run dpkgDebBin ["--build"; "."; outputFileName] tmpPath) ;;
  check r (fun err =>
    "hover: Failed to package deb: " ++ error_text err ++ nl) ;;
  r <- sys (Rename (filepath.Join [tmpPath; outputFileName]) outputFilePath) ;;
  check r (fun err =>
    "hover: Could not move deb file: " ++ error_text err ++ nl) ;;
  r <- sys (RemoveAll tmpPath) ;;
  check r (fun err =>
    "hover: Could not remove packaging configuration folder: "
    ++ error_text err ++ nl) ;;
  ret tt.

(** ** Observing a run *)

Definition result {A : Type} (m : M A) (w : World) : outcome A := fst (m w).
Definition final {A : Type} (m : M A) (w : World) : World := snd (m w).

(** The calls made, and the lines printed, by the run of [m] from [w]. *)
Definition events {A : Type} (m : M A) (w : World) : list Event :=
  skipn (List.length (trace w)) (trace (final m w)).
Definition printed {A : Type} (m : M A) (w : World) : list string :=
  skipn (List.length (console w)) (console (final m w)).

Inductive Format : Type := LinuxSnap | LinuxDeb.

Definition format_name (f : Format) : string :=
  match f with
  | LinuxSnap => "linux-snap"
  | LinuxDeb => "linux-deb"
  end.

Definition packager (f : Format) : string :=
  match f with
  | LinuxSnap => "snapcraft"
  | LinuxDeb => "dpkg-deb"
  end.

Definition init (f : Format) (projectName : string) : M unit :=
  match f with
  | LinuxSnap => initLinuxSnap projectName
  | LinuxDeb => initLinuxDeb projectName
  end.

Definition build (f : Format) (projectName : string) : M unit :=
  match f with
  | LinuxSnap => buildLinuxSnap projectName
  | LinuxDeb => buildLinuxDeb projectName
  end.

(** [filepath.Abs] in a world whose working directory can be read. *)
Definition abs (w : World) (p : string) : string :=
  if filepath.IsAbs p then filepath.Clean p
  else filepath.Join [path_of (cwd w); p].

(** The path [packagingFormatPath] computes. *)
Definition config_path (w : World) (packagingFormat : string) : string :=
  abs w (filepath.Join [packagingPath w; packagingFormat]).

Definition config_key (w : World) (packagingFormat : string) : Key :=
  key_of (cwd w) (config_path w packagingFormat).

Definition is_TempDir (e : Event) : bool :=
  match fst e with TempDir _ _ => true | _ => false end.
Definition is_MkdirAll (e : Event) : bool :=
  match fst e with MkdirAll _ _ => true | _ => false end.
Definition is_RemoveAll (e : Event) : bool :=
  match fst e with RemoveAll _ => true | _ => false end.

(** The successful copies of a trace, as (source, destination). *)
Fixpoint copies (t : list Event) : list (string * string) :=
  match t with
  | [] => []
  | (Copy src dest, Ok _) :: t' => (src, dest) :: copies t'
  | _ :: t' => copies t'
  end.



(** Dropping every occurrence of one byte: what [strings.ReplaceAll]
    does with a one-byte pattern and an empty replacement. *)
Fixpoint remove_byte (c : ascii) (s : string) : string :=
  match s with
  | EmptyString => EmptyString
  | String a s' =>
      if ascii_dec c a then remove_byte c s' else String a (remove_byte c s')
  end.


(** The content of a file written line by line. *)
Definition text (lines : list string) : string :=
  String.concat "" (map (fun line => line ++ nl) lines).

(** ** Specifications of runs *)

(** [wp m Q w]: the run of [m] from [w] ends in an outcome and a world
    that satisfy [Q]. *)
Definition wp {A : Type} (m : M A) (Q : outcome A -> World -> Prop)
    (w : World) : Prop :=
  Q (fst (m w)) (snd (m w)).

(** Calls that only read. *)
Definition readonly (c : Call) : bool :=
  match c with
  | Getwd | Stat _ | Close _ | LookPath _ | UserCurrent => true
  | _ => false
  end.

Definition is_Stat (e : Event) : bool :=
  match fst e with Stat _ => true | _ => false end.

(** The call [c] was made and succeeded. *)
Definition succeeded (c : Call) (t : list Event) : Prop :=
  exists v, In (c, Ok v) t.

(** The run fails with status 1, has changed nothing on disk and has
    made no temporary directory. *)
Definition stops_before_staging (m : M unit) (w : World) : Prop :=
  result m w = Exit 1 /\
  fs (final m w) = fs w /\
  existsb is_TempDir (events m w) = false.

(** The working directory can be read whenever it is asked for. *)
Definition path_resolves (w : World) : Prop :=
  forall n, faults w n Getwd = None.


(** The existence probe of the configuration path reports that nothing
    is there. *)
Definition probe_reports_missing (w : World) (packagingFormat : string) : Prop :=
  fs_stat (fs w) (config_key w packagingFormat) = Fail ErrNotExist /\
  forall n, faults w n (Stat (config_path w packagingFormat)) = None.

Definition snapOutputFilePath (w : World) (projectName : string) : string :=
  filepath.Join [outputDirectoryPath w "linux-snap";
                 removeDashesAndUnderscores projectName ++ "_" ++ GOARCH w ++ ".snap"].

Definition debOutputFilePath (w : World) (projectName : string) : string :=
  filepath.Join [outputDirectoryPath w "linux-deb";
                 removeDashesAndUnderscores projectName ++ "_" ++ GOARCH w ++ ".deb"].

Definition outputFilePath (f : Format) (w : World) (projectName : string) : string :=
  match f with
  | LinuxSnap => snapOutputFilePath w projectName
  | LinuxDeb => debOutputFilePath w projectName
  end.

Definition tempdir_prefix (f : Format) (projectName : string) : string :=
  "hover-build-" ++ projectName ++ "-" ++ format_name f.

(** What each build copies into the staging root [tmpPath], in order. *)
Definition staged_copies (f : Format) (w : World) (projectName tmpPath : string)
  : list (string * string) :=
  match f with
  | LinuxSnap =>
      [ (filepath.Join [buildPath w; "assets"], filepath.Join [tmpPath; "assets"]);
        (outputDirectoryPath w "linux", filepath.Join [tmpPath; "build"]);
        (config_path w "linux-snap", filepath.Join [tmpPath]) ]
  | LinuxDeb =>
      [ (outputDirectoryPath w "linux",
         filepath.Join [abs w (filepath.Join [tmpPath; "usr"; "lib"]); projectName]);
        (config_path w "linux-deb", filepath.Join [tmpPath]) ]
  end.


(** Where [initLinuxDeb] puts the shell wrapper and the desktop entry. *)
Definition debBinFilePath (w : World) (projectName : string) : string :=
  abs w (filepath.Join
           [abs w (filepath.Join [config_path w "linux-deb"; "usr"; "bin"]);
            removeDashesAndUnderscores projectName]).

Definition debDesktopFilePath (w : World) (projectName : string) : string :=
  abs w (filepath.Join
           [abs w (filepath.Join [config_path w "linux-deb";
                                  "usr"; "share"; "applications"]);
            projectName ++ ".desktop"]).

Definition debControlFilePath (w : World) : string :=
  abs w (filepath.Join
           [abs w (filepath.Join [config_path w "linux-deb"; "DEBIAN"]);
            "control"]).

(** Is the event a successful rename to [dest]? *)
Definition is_move_to (dest : string) (e : Event) : bool :=
  match e with
  | (Rename _ d, Ok _) => d =? dest
  | _ => false
  end.

(** No [target] event of the trace comes before a [guard] event:
    [seen] says whether a guard event came already. *)
Fixpoint guarded (target guard : Event -> bool) (seen : bool) (t : list Event) : bool :=
  match t with
  | [] => true
  | e :: t' =>
      (negb (target e) || seen) && guarded target guard (seen || guard e) t'
  end.

Definition failed_cleanup (e : Event) : bool :=
  is_RemoveAll e && failed (snd e).

(** ** A concrete host, for running the commands *)

Module Demo.

Fixpoint fs_of_list (l : list (Key * node)) : FS :=
  match l with
  | [] => fun _ => None
  | (k, n) :: l' => put (fs_of_list l') k n
  end.

Definition project : Key := ["home"; "dev"; "myapp"].

(** A Flutter project after [hover init] and a Linux build. *)
Definition disk : FS :=
  fs_of_list
    [ (["tmp"], Dir 511);
      (["home"], Dir 493);
      (["home"; "dev"], Dir 493);
      (project, Dir 493);
      (project ++ ["go"], Dir 493);
      (project ++ ["go"; "assets"], Dir 493);
      (project ++ ["go"; "assets"; "icon.png"], File 420 "PNG");
      (project ++ ["go"; "build"], Dir 493);
      (project ++ ["go"; "build"; "outputs"], Dir 493);
      (project ++ ["go"; "build"; "outputs"; "linux"], Dir 493);
      (project ++ ["go"; "build"; "outputs"; "linux"; "myapp"], File 493 "ELF");
      (project ++ ["go"; "build"; "outputs"; "linux-snap"], Dir 493);
      (project ++ ["go"; "build"; "outputs"; "linux-deb"], Dir 493) ]%list.

(** The native packagers: each needs its configuration in the staging
    root and leaves one artifact there. *)
Definition packagers (artifact : string)
    (bin : string) (args : list string) (dir : Key) (f : FS) : option FS :=
  if bin =? "/usr/bin/snapcraft" then
    match f (dir ++ ["snap"; "snapcraft.yaml"])%list with
    | Some (File _ _) => Some (put f (dir ++ [artifact])%list (File 420 "SNAP"))
    | _ => None
    end
  else if bin =? "/usr/bin/dpkg-deb" then
    match args, f (dir ++ ["DEBIAN"; "control"])%list with
    | [_; _; out], Some (File _ _) =>
        Some (put f (dir ++ [out])%list (File 420 "DEB"))
    | _, _ => None
    end
  else None.

Definition host (name author : string) (f : FS) : World :=
  {| GOOS := "linux";
     GOARCH := "amd64";
     buildPath := "go";
     outputDirectoryPath := fun os => "/home/dev/myapp/go/build/outputs/" ++ os;
     pubspec := Some (mkPubSpec name "1.2.3" author "demo");
     cwd := project;
     tmpdir := "/tmp";
     random := ["071239"; "552310"];
     search_path := [("snapcraft", "/usr/bin/snapcraft");
                     ("dpkg-deb", "/usr/bin/dpkg-deb")];
     current_user := Some "alice";
     programs := packagers (removeDashesAndUnderscores name ++ "_1.2.3_amd64.snap");
     faults := fun _ _ => None;
     fs := f;
     console := [];
     trace := [] |}.

(** The world a program leaves, started afresh (console and trace
    emptied), as the next command finds it. *)
Definition next (w : World) : World :=
  set_console (set_os w (fs w) (random w) []) [].

(** The project with nothing scaffolded yet; the author is not set. *)
Definition fresh : World := host "my-app" "" disk.

(** After [hover init-packaging] of the format. *)
Definition scaffolded (f : Format) : World :=
  next (final (init f "my-app") fresh).

(** The disk refuses every [stat]. *)
Definition unreadable : World :=
  {| GOOS := "linux";
     GOARCH := "amd64";
     buildPath := "go";
     outputDirectoryPath := outputDirectoryPath fresh;
     pubspec := pubspec fresh;
     cwd := project;
     tmpdir := "/tmp";
     random := random fresh;
     search_path := search_path fresh;
     current_user := Some "alice";
     programs := programs fresh;
     faults := fun _ c => match c with Stat _ => Some Denied | _ => None end;
     fs := disk;
     console := [];
     trace := [] |}.

(** No packager is installed. *)
Definition bare : World :=
  {| GOOS := "linux";
     GOARCH := "amd64";
     buildPath := "go";
     outputDirectoryPath := outputDirectoryPath fresh;
     pubspec := pubspec fresh;
     cwd := project;
     tmpdir := "/tmp";
     random := random fresh;
     search_path := [];
     current_user := Some "alice";
     programs := programs fresh;
     faults := fun _ _ => None;
     fs := fs (scaffolded LinuxDeb);
     console := [];
     trace := [] |}.

(** The deb is scaffolded, and the temporary directory cannot be removed. *)
Definition sticky : World :=
  {| GOOS := "linux";
     GOARCH := "amd64";
     buildPath := "go";
     outputDirectoryPath := outputDirectoryPath fresh;
     pubspec := pubspec fresh;
     cwd := project;
     tmpdir := "/tmp";
     random := random fresh;
     search_path := search_path fresh;
     current_user := Some "alice";
     programs := programs fresh;
     faults := fun _ c => match c with RemoveAll _ => Some Denied | _ => None end;
     fs := fs (scaffolded LinuxDeb);
     console := [];
     trace := [] |}.

End Demo.


(** ** More observations of a run *)

Definition is_UserCurrent (e : Event) : bool :=
  match fst e with UserCurrent => true | _ => false end.

(** The host is the one the two formats are for. *)
Definition on_linux (w : World) : Prop := GOOS w = "linux".

Definition wrong_os_message (f : Format) : string :=
  "hover: " ++ format_name f ++ " only works on linux" ++ nl.

Module Hosts.

(** The demonstration project on a Mac. *)
Definition mac : World :=
  {| GOOS := "darwin";
     GOARCH := "arm64";
     buildPath := "go";
     outputDirectoryPath := outputDirectoryPath Demo.fresh;
     pubspec := pubspec Demo.fresh;
     cwd := Demo.project;
     tmpdir := "/tmp";
     random := random Demo.fresh;
     search_path := search_path Demo.fresh;
     current_user := Some "alice";
     programs := programs Demo.fresh;
     faults := fun _ _ => None;
     fs := Demo.disk;
     console := [];
     trace := [] |}.

End Hosts.

(** The arguments each build gives to its packager. *)
Definition debFileName (w : World) (projectName : string) : string :=
  removeDashesAndUnderscores projectName ++ "_" ++ GOARCH w ++ ".deb".

Definition packager_args (f : Format) (w : World) (projectName : string)
  : list string :=
  match f with
  | LinuxSnap => []
  | LinuxDeb => ["--build"; "."; debFileName w projectName]
  end.

Definition succeeded_event (e : Event) : bool := negb (failed (snd e)).

(** The calls a scaffolding may make: it reads, and it makes
    directories of mode 0775 and files, one of which it makes
    executable with mode 0777. *)
Definition scaffold_call (e : Event) : bool :=
  match fst e with
  | Getwd | Stat _ | UserCurrent | Create _ | WriteString _ _ | Close _ => true
  | MkdirAll _ perm => N.eqb perm 509
  | Chmod _ mode => N.eqb mode 511
  | _ => false
  end.

(** What was written, created and closed with success, in order. *)
Fixpoint writes (t : list Event) : list (string * string) :=
  match t with
  | [] => []
  | (WriteString file s, Ok _) :: t' => (file, s) :: writes t'
  | _ :: t' => writes t'
  end.

Fixpoint creates (t : list Event) : list string :=
  match t with
  | [] => []
  | (Create file, Ok _) :: t' => file :: creates t'
  | _ :: t' => creates t'
  end.

Fixpoint closes (t : list Event) : list string :=
  match t with
  | [] => []
  | (Close file, Ok _) :: t' => file :: closes t'
  | _ :: t' => closes t'
  end.

Fixpoint mkdirs (t : list Event) : list string :=
  match t with
  | [] => []
  | (MkdirAll path _, Ok _) :: t' => path :: mkdirs t'
  | _ :: t' => mkdirs t'
  end.

(** The lines of [content], each ended by a newline, written to [file]. *)
Definition lines_to (file : string) (content : list string)
  : list (string * string) :=
  map (fun line => (file, line ++ nl)) content.

(** The files of the snap scaffolding. *)
Definition snapcraftFilePath (w : World) : string :=
  abs w (filepath.Join [config_path w "linux-snap"; "snap"; "snapcraft.yaml"]).

Definition snapLocalDirectoryPath (w : World) : string :=
  abs w (filepath.Join [config_path w "linux-snap"; "snap"; "local"]).

Definition snapDesktopFilePath (w : World) (projectName : string) : string :=
  abs w (filepath.Join [snapLocalDirectoryPath w; projectName ++ ".desktop"]).

Definition snapcraftFileContent (projectName : string) (ps : PubSpec) : list string :=
  [ "name: " ++ removeDashesAndUnderscores projectName;
    "base: core18";
    "version: '" ++ Version ps ++ "'";
    "summary: " ++ Description ps;
    "description: |";
    "  " ++ Description ps;
    "confinement: devmode";
    "grade: devel";
    "apps:";
    "  " ++ removeDashesAndUnderscores projectName ++ ":";
    "    command: " ++ projectName;
    "    desktop: local/" ++ projectName ++ ".desktop";
    "parts:";
    "  desktop:";
    "    plugin: dump";
    "    source: snap";
    "  assets:";
    "    plugin: dump";
    "    source: assets";
    "  app:";
    "    plugin: dump";
    "    source: build";
    "    stage-packages:";
    "      - libx11-6";
    "      - libxrandr2";
    "      - libxcursor1";
    "      - libxinerama1" ].

Definition snapDesktopFileContent (projectName : string) (ps : PubSpec) : list string :=
  [ "[Desktop Entry]";
    "Encoding=UTF-8";
    "Version=" ++ Version ps;
    "Type=Application";
    "Terminal=false";
    "Exec=/" ++ projectName;
    "Name=" ++ projectName;
    "Icon=/icon.png" ].

(** The files of the deb scaffolding. *)
Definition debControlFileContent (w : World) (projectName : string) (ps : PubSpec)
  : list string :=
  [ "Package: " ++ removeDashesAndUnderscores projectName;
    "Architecture: " ++ GOARCH w;
    "Maintainer: @" ++ Author ps;
    "Priority: optional";
    "Version: " ++ Version ps;
    "Description: " ++ Description ps;
    "Depends: libx11-6,libxrandr2,libxcursor1,libxinerama1" ].

Definition debBinFileContent (projectName : string) : list string :=
  [ "#!/bin/sh";
    "/usr/lib/" ++ projectName ++ "/" ++ projectName ].

Definition debDesktopFileContent (projectName : string) (ps : PubSpec) : list string :=
  [ "[Desktop Entry]";
    "Encoding=UTF-8";
    "Version=" ++ Version ps;
    "Type=Application";
    "Terminal=false";
    "Exec=/usr/bin/" ++ projectName;
    "Name=" ++ projectName;
    "Icon=/usr/lib/" ++ projectName ++ "/assets/icon.png" ].

(** The two lines that end a scaffolding. *)
Definition init_finished_lines (f : Format) : list string :=
  [ "hover: go/packaging/" ++ format_name f
    ++ " has been created. You can modify the configuration files and add it to git."
    ++ nl;
    "hover: You now can package the linux using `hover build "
    ++ format_name f ++ "`" ++ nl ].

(** The runs of the loop that writes the lines of a file: [written]
    says that [k] holds of the events of a loop in which every write
    succeeds, whatever the writes answer; [write_failed] says that [k]
    holds of the events of every loop that stops at a failed write. *)
Fixpoint written (file : string) (content : list string)
    (k : list Event -> Prop) : Prop :=
  match content with
  | [] => k []
  | line :: rest =>
      forall v,
        written file rest
                (fun evs => k ((WriteString file (line ++ nl), Ok v) :: evs))
  end.

Fixpoint write_failed (file : string) (content : list string)
    (k : list Event -> error -> Prop) : Prop :=
  match content with
  | [] => True
  | line :: rest =>
      (forall e, k [(WriteString file (line ++ nl), Fail e)] e) /\
      (forall v,
          write_failed file rest
                       (fun evs e =>
                          k ((WriteString file (line ++ nl), Ok v) :: evs) e))
  end.

(** Calls that remove nothing from the disk. *)
Definition keeps_entries (c : Call) : bool :=
  match c with
  | Run _ _ _ | Rename _ _ | RemoveAll _ => false
  | _ => true
  end.

(** Every entry of [f] is an entry of [g]. *)
Definition entries_kept (f g : FS) : Prop :=
  forall k, f k <> None -> g k <> None.

(** The root, or an entry of the disk: what an existence probe finds. *)
Definition entry_at (f : FS) (k : Key) : Prop := k = [] \/ f k <> None.

(** What a run never changes: the settings of the host and of the project. *)
Definition settings (w : World) :=
  (GOOS w, GOARCH w, buildPath w, outputDirectoryPath w, pubspec w, cwd w,
   tmpdir w, search_path w, current_user w, programs w, faults w).

Fixpoint chmods (t : list Event) : list (string * N) :=
  match t with
  | [] => []
  | (Chmod file mode, Ok _) :: t' => (file, mode) :: chmods t'
  | _ :: t' => chmods t'
  end.

(** The directories of the deb scaffolding. *)
Definition debDebianDirectoryPath (w : World) : string :=
  abs w (filepath.Join [config_path w "linux-deb"; "DEBIAN"]).

Definition debBinDirectoryPath (w : World) : string :=
  abs w (filepath.Join [config_path w "linux-deb"; "usr"; "bin"]).

Definition debApplicationsDirectoryPath (w : World) : string :=
  abs w (filepath.Join [config_path w "linux-deb"; "usr"; "share"; "applications"]).

(** What every run of a scaffolding is: [evs] are its calls, all of the
    kind a scaffolding makes; the host is as it was, no entry of the
    disk is gone, and the run ends well or with status 1. *)
Definition scaffold_run (w : World) (o : outcome unit) (w' : World)
    (evs : list Event) : Prop :=
  trace w' = (trace w ++ evs)%list /\
  settings w' = settings w /\
  forallb scaffold_call evs = true /\
  entries_kept (fs w) (fs w') /\
  (o = Ret tt \/ o = Exit 1%Z).

(** The user is looked up only for a project without an author. *)
Definition lookup_needed (w : World) (evs : list Event) : Prop :=
  existsb is_UserCurrent evs = true ->
  exists ps, pubspec w = Some ps /\ Author ps = "".

(** The calls of a snap scaffolding that ended well. *)
Definition snap_scaffolding (w : World) (projectName : string) (ps : PubSpec)
    (evs : list Event) : Prop :=
  mkdirs evs = [config_path w "linux-snap"; snapLocalDirectoryPath w] /\
  creates evs = [snapcraftFilePath w; snapDesktopFilePath w projectName] /\
  writes evs
  = (lines_to (snapcraftFilePath w) (snapcraftFileContent projectName ps)
     ++ lines_to (snapDesktopFilePath w projectName)
                 (snapDesktopFileContent projectName ps))%list /\
  closes evs = [snapcraftFilePath w; snapDesktopFilePath w projectName] /\
  chmods evs = [].

(** The calls of a deb scaffolding that ended well. *)
Definition deb_scaffolding (w : World) (projectName : string) (ps : PubSpec)
    (evs : list Event) : Prop :=
  mkdirs evs = [config_path w "linux-deb"; debDebianDirectoryPath w;
                debBinDirectoryPath w; debApplicationsDirectoryPath w] /\
  creates evs = [debControlFilePath w; debBinFilePath w projectName;
                 debDesktopFilePath w projectName] /\
  writes evs
  = (lines_to (debControlFilePath w) (debControlFileContent w projectName ps)
     ++ lines_to (debBinFilePath w projectName) (debBinFileContent projectName)
     ++ lines_to (debDesktopFilePath w projectName)
                 (debDesktopFileContent projectName ps))%list /\
  closes evs = [debControlFilePath w; debBinFilePath w projectName;
                debDesktopFilePath w projectName] /\
  chmods evs = [(debBinFilePath w projectName, 511%N)].

Definition scaffolding (f : Format) (w : World) (projectName : string)
    (ps : PubSpec) (evs : list Event) : Prop :=
  match f with
  | LinuxSnap => snap_scaffolding w projectName ps evs
  | LinuxDeb => deb_scaffolding w projectName ps evs
  end.

(** What a scaffolding prints about the author before it starts: a deb
    scaffolding of a project without an author says so, and names the
    user that the lookup gave. *)
Definition author_lines (f : Format) (ps : PubSpec) (evs : list Event)
    (pre : list string) : Prop :=
  match f with
  | LinuxSnap => pre = []
  | LinuxDeb =>
      if Author ps =? "" then
        exists u,
          In (UserCurrent, Ok u) evs /\
          pre = [ missing_author_message ++ nl;
                  "hover: Using this username from system instead: " ++ u ++ nl ]
      else pre = []
  end.

(** All that a run of a scaffolding from [w] is known to be. *)
Definition scaffold_spec (f : Format) (projectName : string) (w : World)
    (o : outcome unit) (w' : World) : Prop :=
  exists evs,
    scaffold_run w o w' evs /\
    lookup_needed w evs /\
    (f = LinuxSnap -> existsb is_UserCurrent evs = false) /\
    (o = Ret tt ->
     exists ps,
       pubspec w = Some ps /\
       entry_at (fs w') (config_key w (format_name f)) /\
       scaffolding f w projectName ps evs /\
       exists pre,
         author_lines f ps evs pre /\
         console w' = (console w ++ pre ++ init_finished_lines f)%list).

(** A write to [file], whatever it writes and whatever the answer. *)
Definition is_write (file : string) (e : Event) : bool :=
  match fst e with
  | WriteString name _ => name =? file
  | _ => false
  end.

Module Nobody.

(** The demonstration project on a host where the current user cannot
    be looked up. *)
Definition world : World :=
  {| GOOS := "linux";
     GOARCH := "amd64";
     buildPath := "go";
     outputDirectoryPath := outputDirectoryPath Demo.fresh;
     pubspec := pubspec Demo.fresh;
     cwd := Demo.project;
     tmpdir := "/tmp";
     random := random Demo.fresh;
     search_path := search_path Demo.fresh;
     current_user := None;
     programs := programs Demo.fresh;
     faults := fun _ _ => None;
     fs := Demo.disk;
     console := [];
     trace := [] |}.

End Nobody.
(** * Properties *)

(** ** The pure functions *)

Section Strings.

Lemma ReplaceAll_byte (c : ascii) (s : string) :
  strings.ReplaceAll s (String c "") "" = remove_byte c s.
Proof.
  unfold strings.ReplaceAll.
  induction s as [|a s IH]; [reflexivity|].
  cbn [strings.replace_from remove_byte prefix String.length pred].
  destruct (ascii_dec c a) as [->|Hne].
  - destruct s; cbn [prefix]; exact IH.
  - now rewrite IH.
Qed.

Lemma Contains_byte_cons (c a : ascii) (s : string) :
  strings.Contains (String a s) (String c "") =
  (if ascii_dec c a then true else strings.Contains s (String c "")).
Proof.
  cbn [strings.Contains prefix].
  destruct (ascii_dec c a); [|reflexivity].
  now destruct s.
Qed.

Lemma remove_byte_absent (c : ascii) (s : string) :
  strings.Contains (remove_byte c s) (String c "") = false.
Proof.
  induction s as [|a s IH]; [reflexivity|].
  cbn [remove_byte]. destruct (ascii_dec c a) as [->|Hne]; [exact IH|].
  rewrite Contains_byte_cons. now destruct (ascii_dec c a).
Qed.

Lemma remove_byte_keeps_absent (c d : ascii) (s : string) :
  strings.Contains s (String c "") = false ->
  strings.Contains (remove_byte d s) (String c "") = false.
Proof.
  induction s as [|a s IH]; [reflexivity|].
  rewrite Contains_byte_cons. destruct (ascii_dec c a) as [->|Hne]; [discriminate|].
  intros H. cbn [remove_byte]. destruct (ascii_dec d a); [now apply IH|].
  rewrite Contains_byte_cons. destruct (ascii_dec c a); [contradiction|now apply IH].
Qed.

Lemma remove_byte_fixed (c : ascii) (s : string) :
  strings.Contains s (String c "") = false -> remove_byte c s = s.
Proof.
  induction s as [|a s IH]; [reflexivity|].
  rewrite Contains_byte_cons. cbn [remove_byte].
  destruct (ascii_dec c a); [discriminate|].
  intros H. now rewrite IH.
Qed.

Lemma removeDashesAndUnderscores_bytes (s : string) :
  removeDashesAndUnderscores s = remove_byte "_" (remove_byte "-" s).
Proof.
  unfold removeDashesAndUnderscores.
  now rewrite (ReplaceAll_byte "-"), (ReplaceAll_byte "_").
Qed.

Lemma removeDashesAndUnderscores_clean (s : string) :
  strings.Contains (removeDashesAndUnderscores s) "-" = false /\
  strings.Contains (removeDashesAndUnderscores s) "_" = false.
Proof.
  rewrite removeDashesAndUnderscores_bytes. split.
  - apply remove_byte_keeps_absent, remove_byte_absent.
  - apply remove_byte_absent.
Qed.

(** C5: for every string [s], [removeDashesAndUnderscores s] contains
    neither a dash nor an underscore, and applying the function twice
    gives the same result as applying it once. *)
Theorem removeDashesAndUnderscores_clean_idempotent (s : string) :
  strings.Contains (removeDashesAndUnderscores s) "-" = false /\
  strings.Contains (removeDashesAndUnderscores s) "_" = false /\
  removeDashesAndUnderscores (removeDashesAndUnderscores s)
  = removeDashesAndUnderscores s.
Proof.
  destruct (removeDashesAndUnderscores_clean s) as (Hd & Hu).
  repeat split; try assumption.
  rewrite (removeDashesAndUnderscores_bytes (removeDashesAndUnderscores s)).
  rewrite (remove_byte_fixed "-") by assumption.
  now apply remove_byte_fixed.
Qed.


End Strings.

(** The library functions on some inputs. *)
Example clean_dotdot : filepath.Clean "a/b/../c//d/." = "a/c/d".
Proof. reflexivity. Qed.
Example clean_root : filepath.Clean "/../a" = "/a".
Proof. reflexivity. Qed.
Example clean_rel : filepath.Clean "../../a/.." = "../..".
Proof. reflexivity. Qed.
Example clean_empty : filepath.Clean "" = ".".
Proof. reflexivity. Qed.
Example join_ex : filepath.Join [""; "go"; ""; "packaging"] = "go/packaging".
Proof. reflexivity. Qed.
Example split_ex : strings.Split "linux-snap" "-" = ["linux"; "snap"].
Proof. reflexivity. Qed.
Example split_ex2 : strings.Split "a--b-" "--" = ["a"; "b-"].
Proof. reflexivity. Qed.
Example replace_ex : strings.ReplaceAll "aaaa-b" "aa" "x" = "xx-b".
Proof. reflexivity. Qed.
Example strip_ex : removeDashesAndUnderscores "my-cool_app" = "mycoolapp".
Proof. reflexivity. Qed.

(** ** Absolute paths *)

Lemma prefix_empty (s : string) : prefix "" s = true.
Proof. now destruct s. Qed.

Lemma IsAbs_cons (a : ascii) (s : string) :
  filepath.IsAbs (String a s) = if ascii_dec "/" a then true else false.
Proof.
  unfold filepath.IsAbs. cbn [prefix].
  destruct (ascii_dec "/" a); [apply prefix_empty|reflexivity].
Qed.

Lemma IsAbs_app (p q : string) :
  filepath.IsAbs p = true -> filepath.IsAbs (p ++ q) = true.
Proof.
  destruct p as [|a p]; [discriminate|].
  cbn [append]. now rewrite !IsAbs_cons.
Qed.

Lemma IsAbs_path_of (k : Key) : filepath.IsAbs (path_of k) = true.
Proof. unfold path_of. cbn [append]. now rewrite IsAbs_cons. Qed.

Lemma IsAbs_Clean (p : string) :
  filepath.IsAbs p = true -> filepath.IsAbs (filepath.Clean p) = true.
Proof.
  intros H. unfold filepath.Clean. rewrite H.
  destruct (filepath.components p); cbn [append]; now rewrite ?IsAbs_cons.
Qed.

Lemma IsAbs_Join (d : string) (rest : list string) :
  filepath.IsAbs d = true -> filepath.IsAbs (filepath.Join (d :: rest)) = true.
Proof.
  intros H. destruct d as [|a d]; [discriminate|].
  cbn [filepath.Join String.eqb]. apply IsAbs_Clean.
  cbn [String.concat]. destruct rest; [assumption|now apply IsAbs_app].
Qed.

Lemma filepath_Abs_absolute (p : string) :
  filepath.IsAbs p = true -> filepath_Abs p = ret (Ok (filepath.Clean p)).
Proof. unfold filepath_Abs. now intros ->. Qed.

Lemma abs_absolute (w : World) (p : string) :
  filepath.IsAbs p = true -> abs w p = filepath.Clean p.
Proof. unfold abs. now intros ->. Qed.

Lemma abs_relative (w : World) (p : string) :
  filepath.IsAbs p = false -> abs w p = filepath.Join [path_of (cwd w); p].
Proof. unfold abs. now intros ->. Qed.

Lemma IsAbs_abs (w : World) (p : string) : filepath.IsAbs (abs w p) = true.
Proof.
  unfold abs. destruct (filepath.IsAbs p) eqn:E.
  - now apply IsAbs_Clean.
  - apply IsAbs_Join, IsAbs_path_of.
Qed.

Create HintDb isabs.
#[export] Hint Resolve IsAbs_path_of IsAbs_Clean IsAbs_Join IsAbs_abs : isabs.

(** ** Reasoning about runs *)

Lemma skipn_app_length {A : Type} (l r : list A) :
  skipn (List.length l) (l ++ r)%list = r.
Proof. induction l; simpl; auto. Qed.

Lemma skipn_length_nil {A : Type} (l : list A) :
  skipn (List.length l) l = [].
Proof. induction l; simpl; auto. Qed.

Section Rules.

Context {A B : Type}.

Lemma wp_bind (m : M A) (k : A -> M B) (Q : outcome B -> World -> Prop) (w : World) :
  wp m (fun o w' =>
          match o with
          | Ret a => wp (k a) Q w'
          | Exit c => Q (Exit c) w'
          end) w ->
  wp (bind m k) Q w.
Proof. unfold wp, bind. destruct (m w) as [[a|c] w']; auto. Qed.

Lemma wp_ret (a : A) (Q : outcome A -> World -> Prop) (w : World) :
  Q (Ret a) w -> wp (ret a) Q w.
Proof. auto. Qed.

Lemma wp_exit (c : Z) (Q : outcome A -> World -> Prop) (w : World) :
  Q (Exit c) w -> wp (os_Exit c) Q w.
Proof. auto. Qed.

Lemma wp_ask (field : World -> A) (Q : outcome A -> World -> Prop) (w : World) :
  Q (Ret (field w)) w -> wp (ask field) Q w.
Proof. auto. Qed.

End Rules.

Lemma wp_printf (s : string) (Q : outcome unit -> World -> Prop) (w : World) :
  Q (Ret tt) (set_console w (console w ++ [s])%list) -> wp (fmt_Printf s) Q w.
Proof. auto. Qed.

Lemma wp_sys (c : Call) (Q : outcome answer -> World -> Prop) (w : World) :
  (forall a f r, reply w c = (a, f, r) ->
                 Q (Ret a) (set_os w f r (trace w ++ [(c, a)])%list)) ->
  wp (sys c) Q w.
Proof.
  intros H. unfold wp, sys. destruct (reply w c) as [[a f] r] eqn:E.
  now apply H.
Qed.

Lemma wp_filepath_Abs (p : string) (Q : outcome answer -> World -> Prop) (w : World) :
  wp (if filepath.IsAbs p then ret (Ok (filepath.Clean p))
      else
        wd <- sys Getwd ;;
        match wd with
        | Ok d => ret (Ok (filepath.Join [d; p]))
        | Fail e => ret (Fail e)
        end) Q w ->
  wp (filepath_Abs p) Q w.
Proof. exact (fun H => H). Qed.

Lemma wp_getPubSpec (Q : outcome PubSpec -> World -> Prop) (w : World) :
  match pubspec w with
  | Some p => Q (Ret p) w
  | None => Q (Exit 1%Z) w
  end ->
  wp getPubSpec Q w.
Proof. unfold wp, getPubSpec. now destruct (pubspec w). Qed.

Lemma wp_check (a : answer) (msg : error -> string)
    (Q : outcome string -> World -> Prop) (w : World) :
  match a with
  | Ok v => Q (Ret v) w
  | Fail e => Q (Exit 1%Z) (set_console w (console w ++ [msg e])%list)
  end ->
  wp (check a msg) Q w.
Proof. destruct a; auto. Qed.

Lemma reply_readonly (w : World) (c : Call) :
  readonly c = true ->
  reply w c = (fst (fst (reply w c)), fs w, random w).
Proof.
  unfold reply. destruct (faults w _ c); [reflexivity|].
  destruct c; try discriminate; intros _; cbn; try reflexivity.
Qed.

Lemma wp_sys_readonly (c : Call) (Q : outcome answer -> World -> Prop) (w : World) :
  readonly c = true ->
  (forall a, fst (fst (reply w c)) = a ->
             Q (Ret a) (set_os w (fs w) (random w) (trace w ++ [(c, a)])%list)) ->
  wp (sys c) Q w.
Proof.
  intros Hc H. apply wp_sys. intros a f r E.
  rewrite (reply_readonly w c Hc) in E. inversion E; subst. now apply H.
Qed.

(** *** What the world answers *)

Lemma reply_LookPath_absent (w : World) (file : string) :
  assoc (search_path w) file = None ->
  exists e, fst (fst (reply w (LookPath file))) = Fail e.
Proof.
  intros H. unfold reply. destruct (faults w _ _).
  - cbn. eauto.
  - unfold kernel. cbn. rewrite H. eauto.
Qed.

Lemma reply_Getwd (w : World) (d : string) :
  fst (fst (reply w Getwd)) = Ok d -> d = path_of (cwd w).
Proof.
  unfold reply. destruct (faults w _ _); cbn; congruence.
Qed.

Lemma reply_Getwd_resolves (w : World) :
  faults w (List.length (trace w)) Getwd = None ->
  fst (fst (reply w Getwd)) = Ok (path_of (cwd w)).
Proof. unfold reply. now intros ->. Qed.

Lemma reply_Stat (w : World) (p : string) :
  fst (fst (reply w (Stat p))) =
  match faults w (List.length (trace w)) (Stat p) with
  | Some x => Fail (fault_error x)
  | None => fs_stat (fs w) (key_of (cwd w) p)
  end.
Proof. unfold reply. now destruct (faults w _ _). Qed.

Lemma fs_stat_exists (f : FS) (k : Key) :
  f k <> None -> IsNotExist (fs_stat f k) = false.
Proof.
  intros H. unfold fs_stat.
  destruct (file_on_path f [] (parent k)); [reflexivity|].
  destruct k; [reflexivity|]. now destruct (f (s :: k)).
Qed.

Lemma fault_not_IsNotExist (x : fault) : IsNotExist (Fail (fault_error x)) = false.
Proof. now destruct x. Qed.

Ltac wsimpl :=
  cbv beta iota delta [packagingPath set_os set_console];
  cbn [GOOS GOARCH buildPath outputDirectoryPath pubspec cwd tmpdir random
       search_path current_user programs faults fs console trace
       IsNotExist negb].

(** One step of a run, by the shape of the program. *)
Ltac wp_pure_step :=
  wsimpl;
  lazymatch goal with
  | |- wp (bind _ _) _ _ => apply wp_bind
  | |- wp (ret _) _ _ => apply wp_ret
  | |- wp (os_Exit _) _ _ => apply wp_exit
  | |- wp (ask _) _ _ => apply wp_ask
  | |- wp (fmt_Printf _) _ _ => apply wp_printf
  | |- wp (fmt_Println _) _ _ => apply wp_printf
  | |- wp (check ?a _) _ _ =>
      apply wp_check; tryif is_var a then destruct a else idtac
  | |- wp getPubSpec _ _ =>
      apply wp_getPubSpec; wsimpl;
      try lazymatch goal with
          | H : pubspec ?w = _ |- _ => rewrite H
          | |- context [pubspec ?w] => destruct (pubspec w) eqn:?
          end
  | |- wp (filepath_Abs ?p) _ _ =>
      first [ rewrite (filepath_Abs_absolute p) by auto 10 with isabs
            | apply wp_filepath_Abs ]
  | |- wp (packagingFormatPath _) _ _ => unfold packagingFormatPath
  | |- wp (createPackagingFormatDirectory _) _ _ =>
      unfold createPackagingFormatDirectory
  | |- wp (assertPackagingFormatInitialized _) _ _ =>
      unfold assertPackagingFormatInitialized
  | |- wp (assertCorrectOS _) _ _ => unfold assertCorrectOS
  | |- wp (getTemporaryBuildDirectory _ _) _ _ => unfold getTemporaryBuildDirectory
  | |- wp (writeLines _ _ _) _ _ => unfold writeLines
  | |- wp (printInitFinished _) _ _ => unfold printInitFinished
  | |- wp (match ?a with Ok _ => _ | Fail _ => _ end) _ _ => is_var a; destruct a
  | |- wp (if ?b then _ else _) _ _ =>
      first [ match goal with H : b = _ |- _ => rewrite H end
            | destruct b eqn:? ]
  | |- wp (forEach _ _) _ _ => cbn [forEach fold_left app linuxPackagingDependencies]
  end.

(** A system call, keeping what is known of the answer. *)
Ltac wp_sys_keep :=
  wsimpl;
  lazymatch goal with
  | |- wp (sys ?c) _ _ =>
      first [ apply wp_sys_readonly; [reflexivity | intros ? ?]
            | apply wp_sys; intros ? ? ? ? ]
  end.

(** A system call with any answer; the working directory, when it can
    be read, is the one of the world. *)
Ltac wp_sys_step :=
  wsimpl;
  lazymatch goal with
  | |- wp (sys Getwd) _ _ =>
      apply wp_sys_readonly; [reflexivity|];
      let a := fresh "a" in
      let H := fresh "Hwd" in
      intros a H; destruct a;
      [apply reply_Getwd in H; cbn [cwd set_os set_console] in H; subst|]
  | |- wp (sys ?c) _ _ =>
      first [ apply wp_sys_readonly; [reflexivity | intros ? _]
            | apply wp_sys; intros ? ? ? _ ]
  end.

Ltac wp_step := first [wp_pure_step | wp_sys_step].

(** Run to the end, closing with [leaf] the ends it can close. *)
Ltac wp_run leaf :=
  repeat (wp_step;
          try (lazymatch goal with
               | |- wp _ _ _ => fail
               | |- _ => solve [leaf]
               end)).

(** The events of a run, once the trace is a list appended to the
    trace at the start. *)
Ltac trace_norm :=
  wsimpl; rewrite <- ?app_assoc; cbn [app];
  rewrite ?skipn_app_length, ?skipn_length_nil.

(** ** The packager must be installed *)

(** C4: if the native packaging executable of the format (snapcraft,
    dpkg-deb) is not on the execution search path, the build exits with
    the non-zero status 1 before any temporary staging directory is
    made: the disk is as it was and no temporary directory was asked
    for. *)
Theorem build_stops_without_packager (f : Format) (name : string) (w : World) :
  assoc (search_path w) (packager f) = None ->
  stops_before_staging (build f name) w.
Proof.
  intros H.
  change (wp (build f name)
             (fun o w' => o = Exit 1%Z /\ fs w' = fs w /\
                existsb is_TempDir (skipn (List.length (trace w)) (trace w')) = false) w).
  destruct (reply_LookPath_absent w _ H) as [e He].
  destruct f; cbn [build packager] in *.
  - unfold buildLinuxSnap, assertCorrectOS.
    repeat wp_pure_step; [trace_norm; auto|].
    wp_sys_keep.
    match goal with H : _ = ?a |- _ => rewrite He in H; subst a end.
    repeat wp_step. trace_norm; auto.
  - unfold buildLinuxDeb, assertCorrectOS.
    repeat wp_pure_step; [trace_norm; auto|].
    wp_sys_keep.
    match goal with H : _ = ?a |- _ => rewrite He in H; subst a end.
    repeat wp_step. trace_norm; auto.
Qed.

Lemma build_stops_without_packager_witness :
  assoc (search_path Demo.bare) (packager LinuxDeb) = None /\
  stops_before_staging (build LinuxDeb "my-app") Demo.bare.
Proof.
  split; [reflexivity|].
  apply (build_stops_without_packager LinuxDeb "my-app" Demo.bare).
  reflexivity.
Defined.

(** ** The existence probe of the scaffolder *)

Ltac in_cases :=
  repeat match goal with
         | H : In _ (_ :: _) |- _ =>
             destruct H as [H|H]; [inversion H; subst; clear H|]
         | H : In _ [] |- _ => destruct H
         end.

Lemma negb_IsNotExist_false (a : answer) :
  negb (IsNotExist a) = false -> IsNotExist a = false -> False.
Proof. destruct (IsNotExist a); discriminate. Qed.

(** C10: whenever the existence probe of [createPackagingFormatDirectory]
    answers anything but a not-exist error (the path is there, or the
    probe itself failed, say for lack of permission), the function
    prints the already-exists diagnostic and exits with status 1; it
    never goes on to create the directory. *)
Theorem probe_failure_counts_as_existing
    (fmt : string) (w : World) (p : string) (a : answer) :
  In (Stat p, a) (events (createPackagingFormatDirectory fmt) w) ->
  IsNotExist a = false ->
  result (createPackagingFormatDirectory fmt) w = Exit 1 /\
  printed (createPackagingFormatDirectory fmt) w = [already_exists_message fmt] /\
  existsb is_MkdirAll (events (createPackagingFormatDirectory fmt) w) = false /\
  fs (final (createPackagingFormatDirectory fmt) w) = fs w.
Proof.
  revert p a.
  change (wp (createPackagingFormatDirectory fmt)
            (fun o w' => forall p a,
               In (Stat p, a) (skipn (List.length (trace w)) (trace w')) ->
               IsNotExist a = false ->
               o = Exit 1%Z /\
               skipn (List.length (console w)) (console w')
               = [already_exists_message fmt] /\
               existsb is_MkdirAll (skipn (List.length (trace w)) (trace w')) = false /\
               fs w' = fs w) w).
  unfold createPackagingFormatDirectory.
  repeat wp_step.
  all: trace_norm; intros p0 a0 Hin Hne; in_cases.
  all: try solve [exfalso; eauto using negb_IsNotExist_false].
  all: auto.
Qed.

Lemma probe_failure_counts_as_existing_witness :
  result (createPackagingFormatDirectory "linux-deb") Demo.unreadable = Exit 1 /\
  printed (createPackagingFormatDirectory "linux-deb") Demo.unreadable
  = [already_exists_message "linux-deb"] /\
  existsb is_MkdirAll
    (events (createPackagingFormatDirectory "linux-deb") Demo.unreadable) = false /\
  fs (final (createPackagingFormatDirectory "linux-deb") Demo.unreadable)
  = fs Demo.unreadable.
Proof.
  apply (probe_failure_counts_as_existing "linux-deb" Demo.unreadable
           "/home/dev/myapp/go/packaging/linux-deb" (Fail ErrPermission)).
  - vm_compute. right. left. reflexivity.
  - reflexivity.
Defined.



Ltac wp_step_to_stat :=
  first [ wp_pure_step
        | lazymatch goal with
          | |- wp (sys (Stat _)) _ _ => fail
          | |- _ => wp_sys_step
          end ].



(** ** Building a format that was never scaffolded *)

Lemma reply_Stat_missing (w : World) (p : string) :
  fs_stat (fs w) (key_of (cwd w) p) = Fail ErrNotExist ->
  faults w (List.length (trace w)) (Stat p) = None ->
  fst (fst (reply w (Stat p))) = Fail ErrNotExist.
Proof. intros H F. now rewrite reply_Stat, F. Qed.

(** At a probe of a path known to be missing. *)
Ltac stat_missing Hm Hf :=
  wsimpl;
  lazymatch goal with
  | |- wp (sys (Stat ?p)) _ ?w1 =>
      let Hn := fresh "Hmissing" in
      pose proof (reply_Stat_missing w1 p) as Hn;
      cbn [fs cwd faults trace set_os set_console] in Hn;
      specialize (Hn Hm (Hf _));
      apply wp_sys_readonly; [reflexivity|];
      let a := fresh "a" in
      let Ha := fresh "Ha" in
      intros a Ha; rewrite Hn in Ha; subst a
  end.

(** The builds themselves never probe the configuration directory. *)
Lemma build_never_probes (f : Format) (name : string) (w : World) :
  existsb is_Stat (events (build f name) w) = false.
Proof.
  change (wp (build f name)
            (fun _ w' =>
               existsb is_Stat (skipn (List.length (trace w)) (trace w')) = false) w).
  destruct f; cbn [build]; unfold buildLinuxSnap, buildLinuxDeb.
  all: repeat wp_step.
  all: trace_norm; reflexivity.
Qed.

(** C3, as the code has it: where the existence probe reports that the
    configuration directory of the format is missing, the guard
    [assertPackagingFormatInitialized], run ahead of the build, fails
    the command with status 1 before any temporary staging directory is
    made; [buildLinuxSnap] and [buildLinuxDeb] themselves never probe
    that directory. *)
Theorem guard_stops_uninitialized_build (f : Format) (name : string) (w : World) :
  probe_reports_missing w (format_name f) ->
  stops_before_staging
    (assertPackagingFormatInitialized (format_name f) ;; build f name) w /\
  existsb is_Stat (events (build f name) w) = false.
Proof.
  intros [Hm Hf]. split; [|apply build_never_probes].
  unfold config_key, config_path, abs, packagingPath in Hm, Hf.
  change (wp (assertPackagingFormatInitialized (format_name f) ;; build f name)
            (fun o w' => o = Exit 1%Z /\ fs w' = fs w /\
               existsb is_TempDir (skipn (List.length (trace w)) (trace w')) = false) w).
  destruct (filepath.IsAbs
              (filepath.Join [filepath.Join [buildPath w; "packaging"]; format_name f]))
    eqn:E.
  all: repeat wp_step_to_stat.
  all: try (stat_missing Hm Hf; repeat wp_step).
  all: trace_norm; auto.
Qed.

Lemma guard_stops_uninitialized_build_witness :
  probe_reports_missing Demo.fresh "linux-snap" /\
  stops_before_staging
    (assertPackagingFormatInitialized "linux-snap" ;; build LinuxSnap "my-app")
    Demo.fresh.
Proof.
  assert (H : probe_reports_missing Demo.fresh (format_name LinuxSnap))
    by (split; [vm_compute|intros n]; reflexivity).
  split; [exact H|].
  exact (proj1 (guard_stops_uninitialized_build LinuxSnap "my-app" Demo.fresh H)).
Defined.

(** C3 as stated fails: nothing is scaffolded on this host, and yet
    each build makes its temporary directory before it fails. *)
Lemma unguarded_build_makes_tempdir :
  (fs Demo.fresh (config_key Demo.fresh "linux-snap") = None /\
   ~ stops_before_staging (build LinuxSnap "my-app") Demo.fresh) /\
  (fs Demo.fresh (config_key Demo.fresh "linux-deb") = None /\
   ~ stops_before_staging (build LinuxDeb "my-app") Demo.fresh).
Proof.
  repeat split; try reflexivity.
  all: intros (_ & _ & H); vm_compute in H; discriminate.
Qed.

(** ** Staging, the artifact and the cleanup *)

Lemma guarded_sound (target guard : Event -> bool) (t : list Event) :
  forall seen,
    guarded target guard seen t = true ->
    forall pre e post,
      t = (pre ++ e :: post)%list -> target e = true ->
      seen = true \/ exists g, In g pre /\ guard g = true.
Proof.
  induction t as [|x t IH]; intros seen G pre e post E T.
  - now destruct pre.
  - cbn [guarded] in G. apply andb_prop in G as [G1 G2].
    destruct pre as [|y pre]; cbn [app] in E; inversion E; subst.
    + rewrite T in G1. cbn in G1. now left.
    + destruct (IH _ G2 pre e post eq_refl T) as [S|(g & Hin & Hg)].
      * apply orb_prop in S as [S|S]; [now left|].
        right. exists y. split; [now left|assumption].
      * right. exists g. split; [now right|assumption].
Qed.

Lemma is_move_to_true (dest : string) (e : Event) :
  is_move_to dest e = true -> exists src v, e = (Rename src dest, Ok v).
Proof.
  destruct e as [[] [v|]]; try discriminate. cbn [is_move_to].
  intros H. apply String.eqb_eq in H. subst. eauto.
Qed.

Lemma existsb_middle {A : Type} (p : A -> bool) (pre post : list A) (x : A) :
  p x = true -> existsb p (pre ++ x :: post)%list = true.
Proof.
  intros H. rewrite existsb_app. cbn [existsb]. rewrite H.
  now rewrite orb_true_r.
Qed.

(** Membership in a list that is written out. *)
Ltac in_list := cbn [In]; repeat (first [left; reflexivity | right]).

Ltac events_compute :=
  cbn [guarded existsb copies failed_cleanup is_RemoveAll is_move_to is_Stat
       is_TempDir is_MkdirAll failed fst snd negb orb andb];
  rewrite ?String.eqb_refl;
  cbn [negb orb andb].

Lemma build_cleanup_guarded (f : Format) (name : string) (w : World) :
  wp (build f name)
     (fun o w' =>
        guarded is_RemoveAll (is_move_to (outputFilePath f w name)) false
                (skipn (List.length (trace w)) (trace w')) = true /\
        (existsb failed_cleanup (skipn (List.length (trace w)) (trace w')) = true ->
         o = Exit 1%Z)) w.
Proof.
  destruct f; cbn [build outputFilePath];
    unfold buildLinuxSnap, buildLinuxDeb, snapOutputFilePath, debOutputFilePath.
  all: repeat wp_step.
  all: trace_norm; events_compute; split; auto; discriminate.
Qed.

(** C7: in every run of a build, of either format, the removal of the
    temporary staging directory is attempted only after the artifact
    was renamed, with success, to its place in the output directory;
    and a removal that fails ends the run with status 1. *)
Theorem cleanup_only_after_move (f : Format) (name : string) (w : World)
    (pre post : list Event) (p : string) (a : answer) :
  events (build f name) w = (pre ++ (RemoveAll p, a) :: post)%list ->
  (exists src v, In (Rename src (outputFilePath f w name), Ok v) pre) /\
  (failed a = true -> result (build f name) w = Exit 1).
Proof.
  intros E. pose proof (build_cleanup_guarded f name w) as W.
  change (guarded is_RemoveAll (is_move_to (outputFilePath f w name)) false
                  (events (build f name) w) = true /\
          (existsb failed_cleanup (events (build f name) w) = true ->
           result (build f name) w = Exit 1)) in W.
  destruct W as [G X]. split.
  - destruct (guarded_sound _ _ _ _ G pre _ post E eq_refl)
      as [S|(g & Hin & Hg)]; [discriminate|].
    apply is_move_to_true in Hg as (src & v & ->). eauto.
  - intros F. apply X. rewrite E. apply existsb_middle.
    unfold failed_cleanup. cbn [is_RemoveAll fst snd]. now rewrite F.
Qed.

Lemma cleanup_only_after_move_witness :
  events (build LinuxDeb "my-app") (Demo.scaffolded LinuxDeb)
  = (firstn 7 (events (build LinuxDeb "my-app") (Demo.scaffolded LinuxDeb))
     ++ (RemoveAll "/tmp/hover-build-my-app-linux-deb071239", Ok "") :: [])%list /\
  exists src v,
    In (Rename src (outputFilePath LinuxDeb (Demo.scaffolded LinuxDeb) "my-app"), Ok v)
       (firstn 7 (events (build LinuxDeb "my-app") (Demo.scaffolded LinuxDeb))).
Proof.
  assert (E : events (build LinuxDeb "my-app") (Demo.scaffolded LinuxDeb)
              = (firstn 7 (events (build LinuxDeb "my-app") (Demo.scaffolded LinuxDeb))
                 ++ (RemoveAll "/tmp/hover-build-my-app-linux-deb071239", Ok "") :: [])%list)
    by (vm_compute; reflexivity).
  split; [exact E|].
  exact (proj1 (cleanup_only_after_move LinuxDeb "my-app" _ _ _ _ _ E)).
Defined.

(** When the cleanup fails the run fails, and the deb is in the output
    directory all the same. *)
Example failed_cleanup_keeps_artifact :
  result (build LinuxDeb "my-app") Demo.sticky = Exit 1 /\
  fs (final (build LinuxDeb "my-app") Demo.sticky)
     (key_of (cwd Demo.sticky) (outputFilePath LinuxDeb Demo.sticky "my-app"))
  = Some (File 420 "DEB") /\
  is_dir (fs (final (build LinuxDeb "my-app") Demo.sticky))
         ["tmp"; "hover-build-my-app-linux-deb071239"] = true.
Proof. vm_compute. auto. Qed.

(** C6: in every snap build that succeeds, the artifact that the
    packager left in the staging root under the name with the version,
    [<strippedName>_<version>_<arch>.snap], is renamed to
    [<strippedName>_<arch>.snap] in the snap output directory: a path
    in which the version does not occur, the same for every build of
    the project on the host. *)
Theorem snap_artifact_moved_to_fixed_path (name : string) (w : World) :
  result (buildLinuxSnap name) w = Ret tt ->
  (exists tmpPath ps,
     pubspec w = Some ps /\
     In (TempDir "" (tempdir_prefix LinuxSnap name), Ok tmpPath)
        (events (buildLinuxSnap name) w) /\
     succeeded
       (Rename
          (filepath.Join [tmpPath;
                          removeDashesAndUnderscores name ++ "_" ++ Version ps
                          ++ "_" ++ GOARCH w ++ ".snap"])
          (filepath.Join [outputDirectoryPath w "linux-snap";
                          removeDashesAndUnderscores name ++ "_" ++ GOARCH w
                          ++ ".snap"]))
       (events (buildLinuxSnap name) w)) /\
  (forall w2 : World,
     GOARCH w2 = GOARCH w ->
     outputDirectoryPath w2 "linux-snap" = outputDirectoryPath w "linux-snap" ->
     snapOutputFilePath w2 name = snapOutputFilePath w name).
Proof.
  intros H. split.
  2:{ intros w2 Ha Ho. unfold snapOutputFilePath. now rewrite Ha, Ho. }
  revert H.
  change (wp (buildLinuxSnap name)
            (fun o w' =>
               o = Ret tt ->
               exists tmpPath ps,
                 pubspec w = Some ps /\
                 In (TempDir "" (tempdir_prefix LinuxSnap name), Ok tmpPath)
                    (skipn (List.length (trace w)) (trace w')) /\
                 succeeded
                   (Rename
                      (filepath.Join [tmpPath;
                                      removeDashesAndUnderscores name ++ "_"
                                      ++ Version ps ++ "_" ++ GOARCH w ++ ".snap"])
                      (filepath.Join [outputDirectoryPath w "linux-snap";
                                      removeDashesAndUnderscores name ++ "_"
                                      ++ GOARCH w ++ ".snap"]))
                   (skipn (List.length (trace w)) (trace w'))) w).
  unfold buildLinuxSnap, tempdir_prefix, succeeded. cbn [format_name].
  repeat wp_step.
  all: trace_norm; intros R; try discriminate R.
  all: eexists _, _; split; [reflexivity|]; split; [|eexists]; in_list.
Qed.

Lemma snap_artifact_moved_to_fixed_path_witness :
  result (buildLinuxSnap "my-app") (Demo.scaffolded LinuxSnap) = Ret tt /\
  exists tmpPath ps,
    pubspec (Demo.scaffolded LinuxSnap) = Some ps /\
    In (TempDir "" (tempdir_prefix LinuxSnap "my-app"), Ok tmpPath)
       (events (buildLinuxSnap "my-app") (Demo.scaffolded LinuxSnap)) /\
    succeeded
      (Rename
         (filepath.Join [tmpPath;
                         removeDashesAndUnderscores "my-app" ++ "_" ++ Version ps
                         ++ "_" ++ GOARCH (Demo.scaffolded LinuxSnap) ++ ".snap"])
         (filepath.Join [outputDirectoryPath (Demo.scaffolded LinuxSnap) "linux-snap";
                         removeDashesAndUnderscores "my-app" ++ "_"
                         ++ GOARCH (Demo.scaffolded LinuxSnap) ++ ".snap"]))
      (events (buildLinuxSnap "my-app") (Demo.scaffolded LinuxSnap)).
Proof.
  assert (H : result (buildLinuxSnap "my-app") (Demo.scaffolded LinuxSnap) = Ret tt)
    by (vm_compute; reflexivity).
  split; [exact H|].
  exact (proj1 (snap_artifact_moved_to_fixed_path "my-app" _ H)).
Defined.

(** On the demonstration host the snap lands at the path without the
    version and the staging directory is gone. *)
Example snap_build_on_host :
  fs (final (buildLinuxSnap "my-app") (Demo.scaffolded LinuxSnap))
     (Demo.project ++ ["go"; "build"; "outputs"; "linux-snap"; "myapp_amd64.snap"])%list
  = Some (File 420 "SNAP") /\
  fs (final (buildLinuxSnap "my-app") (Demo.scaffolded LinuxSnap))
     ["tmp"; "hover-build-my-app-linux-snap071239"] = None /\
  fs (final (buildLinuxSnap "my-app") (Demo.scaffolded LinuxSnap))
     ["tmp"; "hover-build-my-app-linux-snap071239"; "myapp_1.2.3_amd64.snap"] = None.
Proof. vm_compute. auto. Qed.





(** ** The files of the deb scaffolding *)

(** What a run of [initLinuxDeb] that succeeds has done. *)
Lemma initLinuxDeb_writes (name : string) (w : World) :
  wp (initLinuxDeb name)
     (fun o w' =>
        o = Ret tt ->
        exists ps,
          pubspec w = Some ps /\
          succeeded (WriteString (debControlFilePath w)
                       ("Maintainer: @" ++ Author ps ++ nl))
                    (skipn (List.length (trace w)) (trace w')) /\
          succeeded (Create (debBinFilePath w name))
                    (skipn (List.length (trace w)) (trace w')) /\
          succeeded (Chmod (debBinFilePath w name) 511)
                    (skipn (List.length (trace w)) (trace w')) /\
          succeeded (WriteString (debDesktopFilePath w name)
                       ("Exec=/usr/bin/" ++ name ++ nl))
                    (skipn (List.length (trace w)) (trace w')) /\
          (Author ps = "" ->
           In (missing_author_message ++ nl)
              (skipn (List.length (console w)) (console w')))) w.
Proof.
  assert (Hcfg : config_path w "linux-deb"
                 = abs w (filepath.Join [filepath.Join [buildPath w; "packaging"];
                                         "linux-deb"])) by reflexivity.
  unfold abs in Hcfg.
  unfold initLinuxDeb, succeeded.
  destruct (filepath.IsAbs
              (filepath.Join [filepath.Join [buildPath w; "packaging"]; "linux-deb"]))
    eqn:E.
  all: wp_run ltac:(intros R; discriminate R).
  all: trace_norm; intros R.
  all: eexists; split; [reflexivity|].
  all: unfold debControlFilePath, debBinFilePath, debDesktopFilePath.
  all: rewrite Hcfg.
  all: rewrite !abs_absolute by auto 10 with isabs.
  all: repeat split; try (eexists; solve [in_list]).
  all: try (intros _; solve [in_list]).
  all: intros Ha; rewrite Ha in *; discriminate.
Qed.




(** The wrapper and the desktop entry on the demonstration host. *)
Example deb_scaffolding_on_host :
  debBinFilePath Demo.fresh "my-app"
  = "/home/dev/myapp/go/packaging/linux-deb/usr/bin/myapp" /\
  fs (Demo.scaffolded LinuxDeb)
     (key_of Demo.project (debBinFilePath Demo.fresh "my-app"))
  = Some (File 511 (text ["#!/bin/sh"; "/usr/lib/my-app/my-app"])) /\
  fs (Demo.scaffolded LinuxDeb)
     (key_of Demo.project (debDesktopFilePath Demo.fresh "my-app"))
  = Some (File 438 (text [ "[Desktop Entry]";
                           "Encoding=UTF-8";
                           "Version=1.2.3";
                           "Type=Application";
                           "Terminal=false";
                           "Exec=/usr/bin/my-app";
                           "Name=my-app";
                           "Icon=/usr/lib/my-app/assets/icon.png" ])).
Proof. vm_compute. auto. Qed.

(** ** The maintainer of the deb *)

(** Whatever the author field, the [Maintainer] line is made of it. *)
Lemma deb_maintainer_is_pubspec_author (name : string) (w : World) :
  result (initLinuxDeb name) w = Ret tt ->
  exists ps,
    pubspec w = Some ps /\
    succeeded (WriteString (debControlFilePath w)
                 ("Maintainer: @" ++ Author ps ++ nl))
              (events (initLinuxDeb name) w) /\
    (Author ps = "" ->
     In (missing_author_message ++ nl) (printed (initLinuxDeb name) w)).
Proof.
  intros R.
  destruct (initLinuxDeb_writes name w R) as (ps & Hp & Hm & _ & _ & _ & Hw).
  eauto.
Qed.

(** C1, on a host where the author field is empty and the current user
    is alice: the scaffolding succeeds and prints the warning about the
    missing author and the user name it says it uses instead, and the
    [Maintainer] line of the control file it writes carries no name. *)
Theorem deb_maintainer_ignores_fallback :
  pubspec Demo.fresh = Some (mkPubSpec "my-app" "1.2.3" "" "demo") /\
  current_user Demo.fresh = Some "alice" /\
  result (initLinuxDeb "my-app") Demo.fresh = Ret tt /\
  printed (initLinuxDeb "my-app") Demo.fresh
  = [ missing_author_message ++ nl;
      "hover: Using this username from system instead: alice" ++ nl;
      "hover: go/packaging/linux-deb has been created. You can modify the configuration files and add it to git." ++ nl;
      "hover: You now can package the linux using `hover build linux-deb`" ++ nl ] /\
  fs (final (initLinuxDeb "my-app") Demo.fresh)
     (key_of Demo.project (debControlFilePath Demo.fresh))
  = Some (File 438 (text [ "Package: myapp";
                           "Architecture: amd64";
                           "Maintainer: @";
                           "Priority: optional";
                           "Version: 1.2.3";
                           "Description: demo";
                           "Depends: libx11-6,libxrandr2,libxcursor1,libxinerama1" ])).
Proof. vm_compute. repeat split. Qed.

(** * Further properties of the packaging commands *)

(** ** The host check *)

(** X1: on a host that is not Linux, the scaffolding and the build of
    either format exit with status 1 after the one diagnostic that the
    format only works on linux; they make no system call and leave the
    disk as it was. *)
Theorem wrong_host_does_nothing (f : Format) (name : string) (w : World) :
  GOOS w <> "linux" ->
  (result (init f name) w = Exit 1 /\
   events (init f name) w = [] /\
   printed (init f name) w = [wrong_os_message f] /\
   fs (final (init f name) w) = fs w) /\
  (result (build f name) w = Exit 1 /\
   events (build f name) w = [] /\
   printed (build f name) w = [wrong_os_message f] /\
   fs (final (build f name) w) = fs w).
Proof.
  intros H. apply String.eqb_neq in H.
  assert (Hs : negb (GOOS w =? nth 0 (strings.Split "linux-snap" "-") "") = true)
    by (change (nth 0 (strings.Split "linux-snap" "-") "") with "linux"; now rewrite H).
  assert (Hd : negb (GOOS w =? nth 0 (strings.Split "linux-deb" "-") "") = true)
    by (change (nth 0 (strings.Split "linux-deb" "-") "") with "linux"; now rewrite H).
  split.
  - change (wp (init f name)
              (fun o w' =>
                 o = Exit 1%Z /\
                 skipn (List.length (trace w)) (trace w') = [] /\
                 skipn (List.length (console w)) (console w') = [wrong_os_message f] /\
                 fs w' = fs w) w).
    destruct f; cbn [init]; unfold initLinuxSnap, initLinuxDeb.
    all: repeat wp_pure_step.
    all: trace_norm; repeat split; reflexivity.
  - change (wp (build f name)
              (fun o w' =>
                 o = Exit 1%Z /\
                 skipn (List.length (trace w)) (trace w') = [] /\
                 skipn (List.length (console w)) (console w') = [wrong_os_message f] /\
                 fs w' = fs w) w).
    destruct f; cbn [build]; unfold buildLinuxSnap, buildLinuxDeb.
    all: repeat wp_pure_step.
    all: trace_norm; repeat split; reflexivity.
Qed.

Lemma wrong_host_does_nothing_witness :
  result (init LinuxDeb "my-app") Hosts.mac = Exit 1 /\
  events (build LinuxSnap "my-app") Hosts.mac = [].
Proof.
  assert (H : GOOS Hosts.mac <> "linux") by discriminate.
  split.
  - exact (proj1 (proj1 (wrong_host_does_nothing LinuxDeb "my-app" Hosts.mac H))).
  - exact (proj1 (proj2 (proj2 (wrong_host_does_nothing LinuxSnap "my-app" Hosts.mac H)))).
Defined.

(** ** The configuration path and its guards *)

Lemma Ret_inj {A : Type} (a b : A) : Ret a = Ret b -> a = b.
Proof. now intros [= ->]. Qed.

Lemma Exit_inj {A : Type} (c d : Z) : @Exit A c = Exit d -> c = d.
Proof. now intros [= ->]. Qed.

(** Equations between outcomes. *)
Ltac outcome_cases :=
  repeat match goal with
         | H : Ret _ = Ret _ |- _ => apply Ret_inj in H; subst
         | H : Exit _ = Exit _ |- _ => apply Exit_inj in H; subst
         | H : Ret _ = Exit _ |- _ => discriminate H
         | H : Exit _ = Ret _ |- _ => discriminate H
         end.


(** X3: whatever the existence probe of [assertPackagingFormatInitialized]
    answers, the guard changes nothing on disk, and the path it probes is
    the configuration path; it lets the command go on, silently, on
    every answer but a not-exist error (so also when the probe itself
    fails, say for lack of permission), and exits with status 1 and the
    not-initialized diagnostic on a not-exist error. *)
Theorem guard_passes_unless_missing
    (fmt : string) (w : World) (p : string) (a : answer) :
  In (Stat p, a) (events (assertPackagingFormatInitialized fmt) w) ->
  p = config_path w fmt /\
  fs (final (assertPackagingFormatInitialized fmt) w) = fs w /\
  (IsNotExist a = false ->
   result (assertPackagingFormatInitialized fmt) w = Ret tt /\
   printed (assertPackagingFormatInitialized fmt) w = []) /\
  (IsNotExist a = true ->
   result (assertPackagingFormatInitialized fmt) w = Exit 1 /\
   printed (assertPackagingFormatInitialized fmt) w = [not_initialized_message fmt]).
Proof.
  revert p a.
  change (wp (assertPackagingFormatInitialized fmt)
            (fun o w' => forall p a,
               In (Stat p, a) (skipn (List.length (trace w)) (trace w')) ->
               p = config_path w fmt /\
               fs w' = fs w /\
               (IsNotExist a = false ->
                o = Ret tt /\
                skipn (List.length (console w)) (console w') = []) /\
               (IsNotExist a = true ->
                o = Exit 1%Z /\
                skipn (List.length (console w)) (console w')
                = [not_initialized_message fmt])) w).
  unfold config_path, abs, packagingPath.
  destruct (filepath.IsAbs
              (filepath.Join [filepath.Join [buildPath w; "packaging"]; fmt])) eqn:E.
  all: repeat wp_step.
  all: trace_norm; intros p0 a0 Hin; in_cases.
  all: repeat split; try reflexivity; intros; try congruence.
Qed.

Lemma guard_passes_unless_missing_witness :
  "/home/dev/myapp/go/packaging/linux-deb" = config_path Demo.unreadable "linux-deb" /\
  result (assertPackagingFormatInitialized "linux-deb") Demo.unreadable = Ret tt.
Proof.
  assert (Hin : In (Stat "/home/dev/myapp/go/packaging/linux-deb", Fail ErrPermission)
                   (events (assertPackagingFormatInitialized "linux-deb")
                           Demo.unreadable))
    by (vm_compute; right; left; reflexivity).
  destruct (guard_passes_unless_missing _ _ _ _ Hin) as (Hp & _ & Hpass & _).
  split; [exact Hp|exact (proj1 (Hpass eq_refl))].
Defined.

(** ** The packager, the artifact and the cleanup *)

(** X4: whenever a build starts its packager, the program it starts is
    the one the search path gave for the format's packager, its
    working directory is the temporary directory made for this build,
    its arguments are none for snapcraft and [--build . <name>_<arch>.deb]
    for dpkg-deb, and every copy of the staging has been made. *)
Theorem build_runs_resolved_packager
    (f : Format) (name : string) (w : World)
    (bin : string) (args : list string) (dir : string) (a : answer) :
  In (Run bin args dir, a) (events (build f name) w) ->
  In (LookPath (packager f), Ok bin) (events (build f name) w) /\
  In (TempDir "" (tempdir_prefix f name), Ok dir) (events (build f name) w) /\
  args = packager_args f w name /\
  copies (events (build f name) w) = staged_copies f w name dir.
Proof.
  revert bin args dir a.
  change (wp (build f name)
            (fun o w' => forall bin args dir a,
               In (Run bin args dir, a) (skipn (List.length (trace w)) (trace w')) ->
               In (LookPath (packager f), Ok bin)
                  (skipn (List.length (trace w)) (trace w')) /\
               In (TempDir "" (tempdir_prefix f name), Ok dir)
                  (skipn (List.length (trace w)) (trace w')) /\
               args = packager_args f w name /\
               copies (skipn (List.length (trace w)) (trace w'))
               = staged_copies f w name dir) w).
  destruct f; cbn [build tempdir_prefix format_name staged_copies packager
                   packager_args];
    unfold buildLinuxSnap, buildLinuxDeb, tempdir_prefix, config_path, abs,
      packagingPath, debFileName.
  all: repeat wp_step.
  all: trace_norm; intros bin0 args0 dir0 a0 Hin; in_cases.
  all: split; [in_list|]; split; [in_list|]; split; [reflexivity|].
  all: events_compute.
  all: repeat match goal with
              | H : filepath.IsAbs _ = _ |- _ => rewrite H
              end.
  all: reflexivity.
Qed.

Lemma build_runs_resolved_packager_witness :
  In (LookPath (packager LinuxDeb), Ok "/usr/bin/dpkg-deb")
     (events (build LinuxDeb "my-app") (Demo.scaffolded LinuxDeb)) /\
  ["--build"; "."; "myapp_amd64.deb"]
  = packager_args LinuxDeb (Demo.scaffolded LinuxDeb) "my-app".
Proof.
  assert (Hin : In (Run "/usr/bin/dpkg-deb" ["--build"; "."; "myapp_amd64.deb"]
                        "/tmp/hover-build-my-app-linux-deb071239", Ok "")
                   (events (build LinuxDeb "my-app") (Demo.scaffolded LinuxDeb)))
    by (vm_compute; do 5 right; left; reflexivity).
  destruct (build_runs_resolved_packager _ _ _ _ _ _ _ Hin) as (Hl & _ & Ha & _).
  split; assumption.
Defined.





(** X7: a build that fails does not remove the staging directory:
    in a run that ends with an exit, no removal has succeeded, and when
    a copy, the packager or the rename failed no removal was tried. *)
Theorem failed_build_keeps_staging
    (f : Format) (name : string) (w : World) (c : Z) :
  result (build f name) w = Exit c ->
  c = 1%Z /\
  forallb (fun e => negb (is_RemoveAll e && succeeded_event e))
          (events (build f name) w) = true /\
  (existsb (fun e => negb (is_RemoveAll e) && failed (snd e))
           (events (build f name) w) = true ->
   existsb is_RemoveAll (events (build f name) w) = false).
Proof.
  revert c.
  change (wp (build f name)
            (fun o w' => forall c,
               o = Exit c ->
               c = 1%Z /\
               forallb (fun e => negb (is_RemoveAll e && succeeded_event e))
                       (skipn (List.length (trace w)) (trace w')) = true /\
               (existsb (fun e => negb (is_RemoveAll e) && failed (snd e))
                        (skipn (List.length (trace w)) (trace w')) = true ->
                existsb is_RemoveAll (skipn (List.length (trace w)) (trace w'))
                = false)) w).
  destruct f; cbn [build]; unfold buildLinuxSnap, buildLinuxDeb.
  all: repeat wp_step.
  all: trace_norm; intros c0 R; outcome_cases.
  all: split; [reflexivity|]; split; [reflexivity|].
  all: cbn; intros X; first [reflexivity | discriminate X].
Qed.

Lemma failed_build_keeps_staging_witness :
  result (build LinuxSnap "my-app") Demo.fresh = Exit 1 /\
  existsb is_RemoveAll (events (build LinuxSnap "my-app") Demo.fresh) = false /\
  is_dir (fs (final (build LinuxSnap "my-app") Demo.fresh))
         ["tmp"; "hover-build-my-app-linux-snap071239"] = true.
Proof.
  assert (H : result (build LinuxSnap "my-app") Demo.fresh = Exit 1)
    by (vm_compute; reflexivity).
  split; [exact H|].
  destruct (failed_build_keeps_staging _ _ _ _ H) as (_ & _ & Hx).
  split; [apply Hx|]; vm_compute; reflexivity.
Defined.

(** ** Faster runs: the loops in one step, and what stays on disk *)

Lemma entries_kept_refl (f : FS) : entries_kept f f.
Proof. now intros k. Qed.

Lemma entries_kept_trans (f g h : FS) :
  entries_kept f g -> entries_kept g h -> entries_kept f h.
Proof. intros H1 H2 k Hk. auto. Qed.

Lemma put_kept (f : FS) (k : Key) (n : node) : entries_kept f (put f k n).
Proof. intros q Hq. unfold put. now destruct (key_eqb q k). Qed.

Lemma fs_mkdirall_kept (f : FS) (k : Key) (perm : N) :
  entries_kept f (snd (fs_mkdirall f k perm)).
Proof.
  unfold fs_mkdirall. destruct (file_on_path f [] k); cbn [snd].
  - apply entries_kept_refl.
  - intros q Hq. now destruct (f q).
Qed.

Lemma fs_create_kept (f : FS) (k : Key) : entries_kept f (snd (fs_create f k)).
Proof.
  unfold fs_create.
  destruct (file_on_path f [] (parent k)); [apply entries_kept_refl|].
  destruct (negb (is_dir f (parent k))); [apply entries_kept_refl|].
  destruct k; [apply entries_kept_refl|].
  destruct (f (s :: k)) as [[]|]; cbn [snd];
    first [apply entries_kept_refl | apply put_kept].
Qed.

Lemma fs_write_kept (f : FS) (k : Key) (s : string) :
  entries_kept f (snd (fs_write f k s)).
Proof.
  unfold fs_write. destruct (f k) as [[]|]; cbn [snd];
    first [apply entries_kept_refl | apply put_kept].
Qed.

Lemma fs_chmod_kept (f : FS) (k : Key) (mode : N) :
  entries_kept f (snd (fs_chmod f k mode)).
Proof.
  unfold fs_chmod. destruct k; [apply entries_kept_refl|].
  destruct (f (s :: k)) as [[]|]; cbn [snd];
    first [apply entries_kept_refl | apply put_kept].
Qed.

Lemma fs_tempdir_kept (f : FS) (wd : Key) (base pfx : string) (rs : list string) :
  entries_kept f (snd (fst (fs_tempdir f wd base pfx rs))).
Proof.
  unfold fs_tempdir. destruct (fresh_name f wd base pfx rs) as [[p rs']|];
    [|apply entries_kept_refl].
  destruct (file_on_path f [] _); [apply entries_kept_refl|].
  destruct (is_dir f _); cbn [fst snd];
    first [apply entries_kept_refl | apply put_kept].
Qed.

Lemma fs_copy_kept (f : FS) (ks kd : Key) : entries_kept f (snd (fs_copy f ks kd)).
Proof.
  assert (Hdir : forall k0,
             entries_kept f
               (snd (match fs_mkdirall f k0 493 with
                     | (Fail e, _) => (Fail e, f)
                     | (Ok _, f1) =>
                         (Ok "",
                          fun q =>
                            match strip_prefix k0 q with
                            | Some (c :: rest) =>
                                match f (ks ++ c :: rest)%list with
                                | Some n => Some n
                                | None => f1 q
                                end
                            | _ => f1 q
                            end)
                     end))).
  { intros k0. pose proof (fs_mkdirall_kept f k0 493) as Hm.
    destruct (fs_mkdirall f k0 493) as [[v|e] f1]; cbn [snd] in *;
      [|apply entries_kept_refl].
    intros q Hq. specialize (Hm q Hq).
    destruct (strip_prefix k0 q) as [[|c rest]|]; try assumption.
    now destruct (f (ks ++ c :: rest)%list). }
  unfold fs_copy. destruct ks as [|s ks]; [apply Hdir|].
  destruct (f (s :: ks)) as [[perm|perm content]|].
  - apply Hdir.
  - pose proof (fs_mkdirall_kept f (parent kd) 493) as Hm.
    destruct (fs_mkdirall f (parent kd) 493) as [[v|e] f1]; cbn [snd] in *;
      [|apply entries_kept_refl].
    destruct (is_dir f1 kd); cbn [snd]; [assumption|].
    eapply entries_kept_trans; [eassumption|apply put_kept].
  - apply entries_kept_refl.
Qed.

Lemma kernel_kept (w : World) (c : Call) :
  keeps_entries c = true -> entries_kept (fs w) (snd (fst (kernel w c))).
Proof.
  destruct c; try discriminate; intros _; unfold kernel; cbn [fst snd].
  - apply entries_kept_refl.
  - apply entries_kept_refl.
  - apply fs_mkdirall_kept.
  - apply fs_create_kept.
  - apply fs_write_kept.
  - apply entries_kept_refl.
  - apply fs_chmod_kept.
  - apply fs_tempdir_kept.
  - apply fs_copy_kept.
  - apply entries_kept_refl.
  - apply entries_kept_refl.
Qed.

Lemma reply_kept (w : World) (c : Call) :
  keeps_entries c = true -> entries_kept (fs w) (snd (fst (reply w c))).
Proof.
  intros H. unfold reply. destruct (faults w _ c).
  - apply entries_kept_refl.
  - now apply kernel_kept.
Qed.

(** A system call that removes nothing. *)
Lemma wp_sys_kept (c : Call) (Q : outcome answer -> World -> Prop) (w : World) :
  keeps_entries c = true ->
  (forall a f r,
      entries_kept (fs w) f ->
      Q (Ret a) (set_os w f r (trace w ++ [(c, a)])%list)) ->
  wp (sys c) Q w.
Proof.
  intros Hc H. apply wp_sys. intros a f r E. apply H.
  pose proof (reply_kept w c Hc) as K. now rewrite E in K.
Qed.

(** The loop that writes a file, in one step. *)
Lemma wp_writeLines (file : string) (content : list string)
    (msg : error -> string) :
  forall (Q : outcome unit -> World -> Prop) (w : World),
    written file content
            (fun evs => forall f r,
                 entries_kept (fs w) f ->
                 Q (Ret tt) (set_os w f r (trace w ++ evs)%list)) ->
    write_failed file content
            (fun evs e => forall f r,
                 entries_kept (fs w) f ->
                 Q (Exit 1%Z)
                   (set_console (set_os w f r (trace w ++ evs)%list)
                                (console w ++ [msg e])%list)) ->
    wp (writeLines file content msg) Q w.
Proof.
  unfold writeLines.
  induction content as [|line rest IH]; intros Q w Hok Hfail; cbn [forEach].
  - apply wp_ret. cbn [written] in Hok.
    specialize (Hok (fs w) (random w) (entries_kept_refl _)).
    rewrite app_nil_r in Hok. now destruct w.
  - cbn [written write_failed] in Hok, Hfail. destruct Hfail as [Hf1 Hf2].
    apply wp_bind, wp_bind.
    apply wp_sys_kept; [reflexivity|]. intros a f r K.
    apply wp_bind, wp_check. destruct a as [v|e].
    + apply wp_ret. apply IH.
      * specialize (Hok v). clear - Hok K.
        revert Hok. generalize (trace w). intros t Hok.
        cbn [fs trace set_os].
        assert (G : forall (k : list Event -> Prop) (k' : list Event -> Prop),
                   (forall evs, k evs -> k' evs) ->
                   written file rest k -> written file rest k').
        { clear. induction rest as [|l rest IH]; intros k k' Hk; cbn [written].
          - apply Hk.
          - intros H v. eapply IH; [|apply H]. intros evs. apply Hk. }
        eapply G; [|exact Hok]. intros evs H f' r' K'. cbn beta in H.
        specialize (H f' r' (entries_kept_trans _ _ _ K K')).
        rewrite <- app_assoc. exact H.
      * specialize (Hf2 v). clear - Hf2 K.
        assert (G : forall (k k' : list Event -> error -> Prop),
                   (forall evs e, k evs e -> k' evs e) ->
                   write_failed file rest k -> write_failed file rest k').
        { clear. induction rest as [|l rest IH]; intros k k' Hk; cbn [write_failed].
          - trivial.
          - intros [H1 H2]. split; [intros e; apply Hk, H1|].
            intros v. eapply IH; [|apply H2]. intros evs e. apply Hk. }
        eapply G; [|exact Hf2]. intros evs e H f' r' K'. cbn beta in H.
        specialize (H f' r' (entries_kept_trans _ _ _ K K')).
        cbn [trace console set_os].
        rewrite <- app_assoc. exact H.
    + apply (Hf1 e f r K).
Qed.

(** *** Rules that keep the trace as one list after the trace at the start *)

Lemma wp_sys_at (c : Call) (Q : outcome answer -> World -> Prop) (w : World)
    (t0 evs : list Event) :
  trace w = (t0 ++ evs)%list ->
  (forall a f r,
      Q (Ret a) (set_os w f r (t0 ++ (evs ++ [(c, a)]))%list)) ->
  wp (sys c) Q w.
Proof.
  intros T H. apply wp_sys. intros a f r _.
  rewrite T, <- app_assoc. apply H.
Qed.

Lemma wp_sys_kept_at (c : Call) (Q : outcome answer -> World -> Prop) (w : World)
    (t0 evs : list Event) :
  keeps_entries c = true ->
  trace w = (t0 ++ evs)%list ->
  (forall a f r,
      entries_kept (fs w) f ->
      Q (Ret a) (set_os w f r (t0 ++ (evs ++ [(c, a)]))%list)) ->
  wp (sys c) Q w.
Proof.
  intros Hc T H. apply wp_sys_kept; [assumption|]. intros a f r K.
  rewrite T, <- app_assoc. now apply H.
Qed.

Lemma wp_sys_readonly_at (c : Call) (Q : outcome answer -> World -> Prop)
    (w : World) (t0 evs : list Event) :
  readonly c = true ->
  trace w = (t0 ++ evs)%list ->
  (forall a, fst (fst (reply w c)) = a ->
             Q (Ret a) (set_os w (fs w) (random w) (t0 ++ (evs ++ [(c, a)]))%list)) ->
  wp (sys c) Q w.
Proof.
  intros Hc T H. apply wp_sys_readonly; [assumption|]. intros a E.
  rewrite T, <- app_assoc. now apply H.
Qed.

Lemma under_refl (k : Key) : under k k = true.
Proof.
  unfold under. induction k as [|a k IH]; cbn [strip_prefix]; [reflexivity|].
  now rewrite String.eqb_refl.
Qed.

Lemma fs_mkdirall_made (f : FS) (k : Key) (perm : N) :
  failed (fst (fs_mkdirall f k perm)) = false ->
  entry_at (snd (fs_mkdirall f k perm)) k.
Proof.
  unfold fs_mkdirall, entry_at.
  destruct (file_on_path f [] k); cbn [fst snd failed]; [discriminate|].
  intros _. destruct (f k); [right; discriminate|].
  rewrite under_refl. unfold key_eqb.
  destruct (list_eq_dec string_dec k []); [now left|right; discriminate].
Qed.

Lemma reply_MkdirAll_made (w : World) (p : string) (perm : N) :
  failed (fst (fst (reply w (MkdirAll p perm)))) = false ->
  entry_at (snd (fst (reply w (MkdirAll p perm)))) (key_of (cwd w) p).
Proof.
  unfold reply. destruct (faults w _ _); cbn [fst snd failed kernel];
    [discriminate|apply fs_mkdirall_made].
Qed.

(** [os.MkdirAll]: when it succeeds, the directory is there. *)
Lemma wp_MkdirAll_at (p : string) (perm : N)
    (Q : outcome answer -> World -> Prop) (w : World) (t0 evs : list Event) :
  trace w = (t0 ++ evs)%list ->
  (forall a f r,
      entries_kept (fs w) f ->
      (failed a = false -> entry_at f (key_of (cwd w) p)) ->
      Q (Ret a) (set_os w f r (t0 ++ (evs ++ [(MkdirAll p perm, a)]))%list)) ->
  wp (sys (MkdirAll p perm)) Q w.
Proof.
  intros T H. apply wp_sys. intros a f r E.
  rewrite T, <- app_assoc. apply H.
  - pose proof (reply_kept w (MkdirAll p perm) eq_refl) as K. now rewrite E in K.
  - pose proof (reply_MkdirAll_made w p perm) as K. now rewrite E in K.
Qed.

Lemma written_impl (file : string) (content : list string)
    (k k' : list Event -> Prop) :
  (forall evs, k evs -> k' evs) ->
  written file content k -> written file content k'.
Proof.
  revert k k'. induction content as [|l rest IH]; intros k k' Hk; cbn [written].
  - apply Hk.
  - intros H v. eapply IH; [|apply H]. intros evs. apply Hk.
Qed.

Lemma write_failed_impl (file : string) (content : list string)
    (k k' : list Event -> error -> Prop) :
  (forall evs e, k evs e -> k' evs e) ->
  write_failed file content k -> write_failed file content k'.
Proof.
  revert k k'. induction content as [|l rest IH]; intros k k' Hk; cbn [write_failed].
  - trivial.
  - intros [H1 H2]. split; [intros e; apply Hk, H1|].
    intros v. eapply IH; [|apply H2]. intros evs e. apply Hk.
Qed.

Lemma wp_writeLines_at (file : string) (content : list string)
    (msg : error -> string) (Q : outcome unit -> World -> Prop) (w : World)
    (t0 evs : list Event) :
  trace w = (t0 ++ evs)%list ->
  written file content
          (fun wevs => forall f r,
               entries_kept (fs w) f ->
               Q (Ret tt) (set_os w f r (t0 ++ (evs ++ wevs))%list)) ->
  write_failed file content
          (fun wevs e => forall f r,
               entries_kept (fs w) f ->
               Q (Exit 1%Z)
                 (set_console (set_os w f r (t0 ++ (evs ++ wevs))%list)
                              (console w ++ [msg e])%list)) ->
  wp (writeLines file content msg) Q w.
Proof.
  intros T Hok Hfail. apply wp_writeLines.
  - eapply written_impl; [|exact Hok]. intros wevs H f r K. cbn beta in H.
    rewrite T, <- app_assoc. now apply H.
  - eapply write_failed_impl; [|exact Hfail]. intros wevs e H f r K. cbn beta in H.
    rewrite T, <- app_assoc. now apply H.
Qed.


Lemma write_failed_all (file : string) (content : list string)
    (k : list Event -> error -> Prop) :
  (forall wevs e, forallb (is_write file) wevs = true -> k wevs e) ->
  write_failed file content k.
Proof.
  revert k. induction content as [|l rest IH]; intros k H; cbn [write_failed].
  - exact I.
  - split.
    + intros e. apply H. cbn [forallb is_write fst]. now rewrite String.eqb_refl.
    + intros v. apply IH. intros wevs e W. apply H.
      cbn [forallb is_write fst]. now rewrite String.eqb_refl.
Qed.

(** The loop that writes a file: the run in which every write succeeds,
    and the runs that stop at a failed write, of which only the file
    written to is kept. *)
Lemma wp_writeLines_run (file : string) (content : list string)
    (msg : error -> string) (Q : outcome unit -> World -> Prop) (w : World)
    (t0 evs : list Event) :
  trace w = (t0 ++ evs)%list ->
  written file content
          (fun wevs => forall f r,
               entries_kept (fs w) f ->
               Q (Ret tt) (set_os w f r (t0 ++ (evs ++ wevs))%list)) ->
  (forall wevs e f r,
      forallb (is_write file) wevs = true ->
      entries_kept (fs w) f ->
      Q (Exit 1%Z)
        (set_console (set_os w f r (t0 ++ (evs ++ wevs))%list)
                     (console w ++ [msg e])%list)) ->
  wp (writeLines file content msg) Q w.
Proof.
  intros T Hok Hfail. apply (wp_writeLines_at _ _ _ _ _ _ _ T Hok).
  apply write_failed_all. intros wevs e W f r K. now apply Hfail.
Qed.

(** The trace of the world, as the trace at the start and what was added. *)
Ltac trace_base := first [reflexivity | symmetry; apply app_nil_r].

(** What is known of the disk, said of the disk itself. *)
Ltac kept_here :=
  repeat match goal with
         | K : entries_kept (fs (mkWorld _ _ _ _ _ _ _ _ _ _ _ _ _ _ _)) _ |- _ =>
             cbn [fs] in K
         | K : _ -> entry_at _ (key_of (cwd (mkWorld _ _ _ _ _ _ _ _ _ _ _ _ _ _ _)) _)
           |- _ =>
             cbn [cwd] in K
         end.

(** One step of a run whose trace is kept as one list; the loops are
    made in one step, and what a call keeps on disk is recorded. *)
Ltac run_step :=
  lazymatch goal with
  | |- wp (bind _ _) _ _ => apply wp_bind
  | |- wp (ret _) _ _ => apply wp_ret
  | |- wp (os_Exit _) _ _ => apply wp_exit
  | |- wp (ask _) _ _ => apply wp_ask
  | |- wp (fmt_Printf _) _ _ => apply wp_printf
  | |- wp (fmt_Println _) _ _ => apply wp_printf
  | |- wp (check ?a _) _ _ =>
      apply wp_check; tryif is_var a then destruct a else idtac
  | |- wp getPubSpec _ _ =>
      apply wp_getPubSpec; wsimpl;
      try lazymatch goal with
          | H : pubspec ?w = _ |- _ => rewrite H
          | |- context [pubspec ?w] => destruct (pubspec w) eqn:?
          end
  | |- wp (filepath_Abs ?p) _ _ =>
      first [ rewrite (filepath_Abs_absolute p) by auto 10 with isabs
            | apply wp_filepath_Abs ]
  | |- wp (packagingFormatPath _) _ _ => unfold packagingFormatPath
  | |- wp (createPackagingFormatDirectory _) _ _ =>
      unfold createPackagingFormatDirectory
  | |- wp (assertCorrectOS _) _ _ => unfold assertCorrectOS
  | |- wp (printInitFinished _) _ _ => unfold printInitFinished
  | |- wp (match ?a with Ok _ => _ | Fail _ => _ end) _ _ => is_var a; destruct a
  | |- wp (if ?b then _ else _) _ _ =>
      first [ match goal with H : b = _ |- _ => rewrite H end
            | destruct b eqn:? ]
  | |- wp (writeLines _ _ _) _ _ =>
      eapply wp_writeLines_run;
      [ trace_base
      | cbn [written fold_left app linuxPackagingDependencies];
        intros; kept_here
      | intros ? ? ? ? ? ?; kept_here; cbn [app] ]
  | |- wp (sys Getwd) _ _ =>
      eapply wp_sys_readonly_at; [reflexivity | trace_base |];
      let a := fresh "a" in
      let H := fresh "Hwd" in
      intros a H; destruct a;
      [apply reply_Getwd in H; cbn [cwd] in H; subst|];
      cbn [app]
  | |- wp (sys (MkdirAll _ _)) _ _ =>
      eapply wp_MkdirAll_at; [trace_base | intros ? ? ? ? ?; kept_here];
      cbn [app]
  | |- wp (sys ?c) _ _ =>
      first [ eapply wp_sys_readonly_at; [reflexivity | trace_base | intros ? _]
            | eapply wp_sys_kept_at;
              [reflexivity | trace_base | intros ? ? ? ?; kept_here]
            | eapply wp_sys_at; [trace_base | intros ? ? ?] ];
      cbn [app]
  end.

(** Run to the end, closing with [leaf] the ends it can close. *)
Ltac run leaf :=
  repeat (wsimpl;
          lazymatch goal with
          | |- wp _ _ _ => run_step
          | |- match _ with Ret _ => _ | Exit _ => _ end => fail
          | |- _ => solve [leaf]
          end).

(** Nothing is gone from the disk, by the steps made so far. *)
Ltac kept :=
  cbn [fs];
  repeat lazymatch goal with
         | |- entries_kept ?a ?a => apply entries_kept_refl
         | K : entries_kept ?b ?c |- entries_kept ?a ?c =>
             first [ exact K
                   | apply (entries_kept_trans a b c); [|exact K] ]
         end.

(** A run that stopped with status 1. *)
Ltac same_host :=
  unfold settings; wsimpl;
  repeat match goal with H : pubspec _ = _ |- _ => rewrite H end;
  reflexivity.

Lemma scaffold_stopped (f : Format) (name : string) (w w' : World)
    (evs : list Event) :
  trace w' = (trace w ++ evs)%list ->
  settings w' = settings w ->
  forallb scaffold_call evs = true ->
  entries_kept (fs w) (fs w') ->
  lookup_needed w evs ->
  (f = LinuxSnap -> existsb is_UserCurrent evs = false) ->
  scaffold_spec f name w (Exit 1%Z) w'.
Proof.
  intros T H S K L U. exists evs. unfold scaffold_run.
  repeat split; auto. discriminate.
Qed.

Lemma lookup_not_made (w : World) (evs : list Event) :
  existsb is_UserCurrent evs = false -> lookup_needed w evs.
Proof. unfold lookup_needed. intros E. rewrite E. discriminate. Qed.

Lemma lookup_was_needed (w : World) (evs : list Event) (ps : PubSpec) :
  pubspec w = Some ps -> (Author ps =? "") = true -> lookup_needed w evs.
Proof.
  intros P A _. exists ps. split; [assumption|]. now apply String.eqb_eq.
Qed.

Lemma writes_scaffold (file : string) (wevs : list Event) :
  forallb (is_write file) wevs = true -> forallb scaffold_call wevs = true.
Proof.
  induction wevs as [|[c a] t IH]; cbn [forallb]; [reflexivity|].
  intros H. apply andb_prop in H as [H1 H2]. rewrite (IH H2).
  destruct c; try discriminate H1. reflexivity.
Qed.

Lemma writes_no_lookup (file : string) (wevs : list Event) :
  forallb (is_write file) wevs = true -> existsb is_UserCurrent wevs = false.
Proof.
  induction wevs as [|[c a] t IH]; cbn [forallb existsb]; [reflexivity|].
  intros H. apply andb_prop in H as [H1 H2]. rewrite (IH H2).
  destruct c; try discriminate H1. reflexivity.
Qed.

(** A scaffolding that stopped with status 1. *)
Ltac stopped :=
  eapply scaffold_stopped;
  [ trace_base
  | same_host
  | cbn [forallb scaffold_call fst N.eqb Pos.eqb andb];
    first [reflexivity | eapply writes_scaffold; eassumption]
  | kept
  | first [ apply lookup_not_made;
            cbn [existsb is_UserCurrent fst orb];
            first [reflexivity | eapply writes_no_lookup; eassumption]
          | eapply lookup_was_needed; eassumption ]
  | first [ intros _;
            cbn [existsb is_UserCurrent fst orb];
            first [reflexivity | eapply writes_no_lookup; eassumption]
          | discriminate ] ].

Lemma entry_at_kept (f g : FS) (k : Key) :
  entries_kept f g -> entry_at f k -> entry_at g k.
Proof. intros K [E|E]; [now left|right; now apply K]. Qed.

Lemma scaffold_done (f : Format) (name : string) (w w' : World)
    (evs : list Event) (ps : PubSpec) (pre : list string) :
  trace w' = (trace w ++ evs)%list ->
  settings w' = settings w ->
  forallb scaffold_call evs = true ->
  entries_kept (fs w) (fs w') ->
  lookup_needed w evs ->
  (f = LinuxSnap -> existsb is_UserCurrent evs = false) ->
  pubspec w = Some ps ->
  entry_at (fs w') (config_key w (format_name f)) ->
  scaffolding f w name ps evs ->
  author_lines f ps evs pre ->
  console w' = (console w ++ pre ++ init_finished_lines f)%list ->
  scaffold_spec f name w (Ret tt) w'.
Proof.
  intros T H S K L U P E C A O. exists evs. unfold scaffold_run.
  repeat split; auto. intros _. exists ps. repeat split; auto.
  now exists pre.
Qed.

(** The directory made first is still there. *)
Ltac config_made Hcfg :=
  unfold config_key; cbn [format_name fs]; rewrite Hcfg;
  match goal with
  | H : failed (Ok _) = false -> entry_at ?g ?k |- entry_at ?h ?k =>
      apply (entry_at_kept g h k); [kept | exact (H eq_refl)]
  end.


(** ** The two scaffoldings, run once *)

Lemma initLinuxSnap_spec (name : string) (w : World) :
  wp (initLinuxSnap name) (scaffold_spec LinuxSnap name w) w.
Proof.
  assert (Hcfg : config_path w "linux-snap"
                 = abs w (filepath.Join [filepath.Join [buildPath w; "packaging"];
                                         "linux-snap"])) by reflexivity.
  unfold abs in Hcfg.
  unfold initLinuxSnap.
  destruct (filepath.IsAbs
              (filepath.Join [filepath.Join [buildPath w; "packaging"]; "linux-snap"]))
    eqn:E.
  all: run ltac:(stopped).
  all: eapply (scaffold_done LinuxSnap) with (pre := []);
    [ trace_base
    | same_host
    | reflexivity
    | kept
    | apply lookup_not_made; reflexivity
    | intros _; reflexivity
    | eassumption
    | config_made Hcfg
    |
    | reflexivity
    | wsimpl; rewrite <- ?app_assoc; reflexivity ].
  all: unfold scaffolding, snap_scaffolding, snapcraftFilePath, snapDesktopFilePath,
         snapLocalDirectoryPath.
  all: rewrite Hcfg.
  all: rewrite !abs_absolute by auto 10 with isabs.
  all: repeat split; reflexivity.
Qed.

(** The lines about the author, by the author field. *)
Ltac author_printed :=
  unfold author_lines;
  match goal with H : (Author _ =? "") = _ |- _ => rewrite H end;
  first [ reflexivity
        | eexists; split; [solve [in_list] | reflexivity] ].

Lemma initLinuxDeb_spec (name : string) (w : World) :
  wp (initLinuxDeb name) (scaffold_spec LinuxDeb name w) w.
Proof.
  assert (Hcfg : config_path w "linux-deb"
                 = abs w (filepath.Join [filepath.Join [buildPath w; "packaging"];
                                         "linux-deb"])) by reflexivity.
  unfold abs in Hcfg.
  unfold initLinuxDeb.
  destruct (filepath.IsAbs
              (filepath.Join [filepath.Join [buildPath w; "packaging"]; "linux-deb"]))
    eqn:E.
  all: run ltac:(stopped).
  all: first [ eapply (scaffold_done LinuxDeb) with (pre := []);
               [ | | | | | | | | | |
                 wsimpl; rewrite <- ?app_assoc; reflexivity ]
             | eapply (scaffold_done LinuxDeb) with (pre := [_; _]);
               [ | | | | | | | | | |
                 wsimpl; rewrite <- ?app_assoc; reflexivity ] ];
    [ trace_base
    | same_host
    | reflexivity
    | kept
    | first [ apply lookup_not_made; reflexivity
            | eapply lookup_was_needed; eassumption ]
    | discriminate
    | eassumption
    | config_made Hcfg
    |
    | author_printed ].
  all: unfold scaffolding, deb_scaffolding, debControlFilePath, debBinFilePath,
         debDesktopFilePath, debDebianDirectoryPath, debBinDirectoryPath,
         debApplicationsDirectoryPath, debControlFileContent.
  all: rewrite Hcfg.
  all: rewrite !abs_absolute by auto 10 with isabs.
  all: repeat split; reflexivity.
Qed.

(** ** What every scaffolding does *)

(** The run of [init] and its events. *)
Lemma init_spec (f : Format) (name : string) (w : World) :
  scaffold_spec f name w (result (init f name) w) (final (init f name) w).
Proof.
  destruct f; [apply initLinuxSnap_spec|apply initLinuxDeb_spec].
Qed.

Lemma init_run (f : Format) (name : string) (w : World) :
  scaffold_run w (result (init f name) w) (final (init f name) w)
               (events (init f name) w).
Proof.
  destruct (init_spec f name w) as (evs & R & _).
  assert (E : events (init f name) w = evs).
  { unfold events. destruct R as (T & _). now rewrite T, skipn_app_length. }
  now rewrite E.
Qed.

Lemma init_done (f : Format) (name : string) (w : World) :
  result (init f name) w = Ret tt ->
  exists ps pre,
    pubspec w = Some ps /\
    entry_at (fs (final (init f name) w)) (config_key w (format_name f)) /\
    scaffolding f w name ps (events (init f name) w) /\
    author_lines f ps (events (init f name) w) pre /\
    printed (init f name) w = (pre ++ init_finished_lines f)%list.
Proof.
  intros Hr.
  destruct (init_spec f name w) as (evs & R & _ & _ & D).
  assert (E : events (init f name) w = evs).
  { unfold events. destruct R as (T & _). now rewrite T, skipn_app_length. }
  destruct (D Hr) as (ps & P & En & S & pre & A & C).
  exists ps, pre. rewrite E.
  split; [exact P|]. split; [exact En|]. split; [exact S|]. split; [exact A|].
  unfold printed. now rewrite C, skipn_app_length.
Qed.

(** X8: whatever the disk and the system answer, a scaffolding only
    reads the working directory, probes, looks up the user, makes
    directories of mode 0775, creates, writes and closes files and
    makes a file executable with mode 0777: it never copies, renames,
    removes or runs anything; and it ends well or with status 1. *)
Theorem init_only_scaffolds (f : Format) (name : string) (w : World) :
  forallb scaffold_call (events (init f name) w) = true /\
  (result (init f name) w = Ret tt \/ result (init f name) w = Exit 1).
Proof.
  destruct (init_run f name w) as (_ & _ & S & _ & O). now split.
Qed.

(** X9: a scaffolding removes nothing: whether it ends well or fails
    half way, every file and directory that was on the disk is still
    there. *)
Theorem init_removes_nothing (f : Format) (name : string) (w : World) (k : Key) :
  fs w k <> None -> fs (final (init f name) w) k <> None.
Proof.
  destruct (init_run f name w) as (_ & _ & _ & K & _). apply K.
Qed.

Lemma init_removes_nothing_witness :
  fs (final (init LinuxSnap "my-app") Demo.fresh)
     (Demo.project ++ ["go"; "assets"; "icon.png"])%list <> None.
Proof.
  apply (init_removes_nothing LinuxSnap "my-app" Demo.fresh).
  vm_compute. discriminate.
Defined.





(** X12: the current user is looked up only by the deb scaffolding,
    and only for a project whose pubspec has no author. *)
Theorem user_lookup_only_without_author (f : Format) (name : string) (w : World) :
  existsb is_UserCurrent (events (init f name) w) = true ->
  f = LinuxDeb /\ exists ps, pubspec w = Some ps /\ Author ps = "".
Proof.
  intros H.
  destruct (init_spec f name w) as (evs & R & L & U & _).
  assert (E : events (init f name) w = evs).
  { unfold events. destruct R as (T & _). now rewrite T, skipn_app_length. }
  rewrite E in H. split; [|exact (L H)].
  destruct f; [|reflexivity].
  rewrite (U eq_refl) in H. discriminate H.
Qed.

Lemma user_lookup_only_without_author_witness :
  LinuxDeb = LinuxDeb /\
  exists ps, pubspec Demo.fresh = Some ps /\ Author ps = "".
Proof.
  apply (user_lookup_only_without_author LinuxDeb "my-app" Demo.fresh).
  vm_compute. reflexivity.
Defined.

(** ** After a scaffolding *)

Lemma fs_stat_entry (f : FS) (k : Key) :
  entry_at f k -> IsNotExist (fs_stat f k) = false.
Proof.
  intros [->|H]; [|now apply fs_stat_exists].
  unfold fs_stat. now destruct (file_on_path f [] (parent [])).
Qed.

Lemma reply_Stat_entry (w : World) (p : string) :
  entry_at (fs w) (key_of (cwd w) p) ->
  IsNotExist (fst (fst (reply w (Stat p)))) = false.
Proof.
  intros H. rewrite reply_Stat. destruct (faults w _ _).
  - apply fault_not_IsNotExist.
  - now apply fs_stat_entry.
Qed.

(** A probe of a path that is there does not answer that it is missing. *)
Lemma wp_Stat_entry_at (p : string) (Q : outcome answer -> World -> Prop)
    (w : World) (t0 evs : list Event) :
  trace w = (t0 ++ evs)%list ->
  entry_at (fs w) (key_of (cwd w) p) ->
  (forall a, IsNotExist a = false ->
             Q (Ret a) (set_os w (fs w) (random w)
                               (t0 ++ (evs ++ [(Stat p, a)]))%list)) ->
  wp (sys (Stat p)) Q w.
Proof.
  intros T En H. apply (wp_sys_readonly_at (Stat p) Q w t0 evs eq_refl T).
  intros a Ha. apply H. rewrite <- Ha. now apply reply_Stat_entry.
Qed.

Lemma config_key_settings (w w' : World) (fmt : string) :
  settings w' = settings w -> config_key w' fmt = config_key w fmt.
Proof.
  unfold settings. intros H. injection H as _ _ Hb _ _ Hc _ _ _ _ _.
  unfold config_key, config_path, abs, packagingPath. now rewrite Hb, Hc.
Qed.

Lemma path_resolves_settings (w w' : World) :
  settings w' = settings w -> path_resolves w -> path_resolves w'.
Proof.
  unfold settings. intros H. injection H as _ _ _ _ _ _ _ _ _ _ Hf.
  unfold path_resolves. now rewrite Hf.
Qed.

(** Run up to the existence probe. *)
Ltac run_to_probe leaf :=
  repeat (wsimpl;
          lazymatch goal with
          | |- wp (sys (Stat _)) _ _ => fail
          | |- wp _ _ _ => run_step
          | |- match _ with Ret _ => _ | Exit _ => _ end => fail
          | |- _ => solve [leaf]
          end).

(** The probe of a path known to be there, and what follows. *)
Ltac probe_entry H leaf :=
  wsimpl;
  lazymatch goal with
  | |- wp (sys (Stat _)) _ _ =>
      eapply wp_Stat_entry_at; [trace_base | exact H |];
      let a := fresh "a" in
      let Ha := fresh "Ha" in
      intros a Ha; wsimpl; rewrite Ha; run leaf
  end.

Lemma init_stops_at_entry (f : Format) (name : string) (w : World) :
  entry_at (fs w) (config_key w (format_name f)) ->
  wp (init f name) (fun o w' => o = Exit 1%Z /\ fs w' = fs w) w.
Proof.
  intros H.
  unfold config_key, config_path, abs, packagingPath in H.
  destruct (filepath.IsAbs _) eqn:E in H.
  all: destruct f; cbn [init format_name] in *.
  all: unfold initLinuxSnap, initLinuxDeb.
  all: run_to_probe ltac:(split; reflexivity).
  all: probe_entry H ltac:(split; reflexivity).
Qed.

Lemma guard_passes_at_entry (fmt : string) (w : World) :
  entry_at (fs w) (config_key w fmt) ->
  path_resolves w ->
  wp (assertPackagingFormatInitialized fmt)
     (fun o w' => o = Ret tt /\ console w' = console w /\ fs w' = fs w) w.
Proof.
  intros H Hr.
  unfold config_key, config_path, abs, packagingPath in H.
  unfold assertPackagingFormatInitialized.
  destruct (filepath.IsAbs _) eqn:E in H.
  all: run_to_probe ltac:(idtac).
  all: try probe_entry H ltac:(repeat split; reflexivity).
  all: wsimpl.
  all: rewrite (reply_Getwd_resolves w (Hr _)) in *; discriminate.
Qed.

(** X13: a format is scaffolded once: after a scaffolding that ended
    well, a second scaffolding of the same format, for any project
    name and whatever the system answers, exits with status 1 and
    leaves the disk as the first one left it. *)
Theorem init_refused_after_init (f : Format) (name name' : string) (w : World) :
  result (init f name) w = Ret tt ->
  result (init f name') (final (init f name) w) = Exit 1 /\
  fs (final (init f name') (final (init f name) w)) = fs (final (init f name) w).
Proof.
  intros Hr.
  destruct (init_done f name w Hr) as (ps & pre & _ & En & _).
  destruct (init_run f name w) as (_ & Hs & _).
  apply (init_stops_at_entry f name' (final (init f name) w)).
  now rewrite (config_key_settings _ _ _ Hs).
Qed.

Lemma init_refused_after_init_witness :
  result (init LinuxSnap "other") (final (init LinuxSnap "my-app") Demo.fresh)
  = Exit 1 /\
  fs (final (init LinuxSnap "other") (final (init LinuxSnap "my-app") Demo.fresh))
  = fs (final (init LinuxSnap "my-app") Demo.fresh).
Proof.
  apply (init_refused_after_init LinuxSnap "my-app" "other" Demo.fresh).
  vm_compute. reflexivity.
Defined.

(** X14: after a scaffolding that ended well, and when the working
    directory can be read, the guard [assertPackagingFormatInitialized]
    of the format passes: it returns, prints nothing and changes
    nothing on disk. *)
Theorem guard_passes_after_init (f : Format) (name : string) (w : World) :
  result (init f name) w = Ret tt ->
  path_resolves w ->
  result (assertPackagingFormatInitialized (format_name f))
         (final (init f name) w) = Ret tt /\
  printed (assertPackagingFormatInitialized (format_name f))
          (final (init f name) w) = [] /\
  fs (final (assertPackagingFormatInitialized (format_name f))
            (final (init f name) w))
  = fs (final (init f name) w).
Proof.
  intros Hr Hp.
  destruct (init_done f name w Hr) as (ps & pre & _ & En & _).
  destruct (init_run f name w) as (_ & Hs & _).
  destruct (guard_passes_at_entry (format_name f) (final (init f name) w))
    as (R & C & F).
  - now rewrite (config_key_settings _ _ _ Hs).
  - now apply (path_resolves_settings _ _ Hs).
  - repeat split; try assumption.
    unfold printed.
    change (final (assertPackagingFormatInitialized (format_name f))
                  (final (init f name) w))
      with (snd (assertPackagingFormatInitialized (format_name f)
                                                  (final (init f name) w))).
    rewrite C. apply skipn_length_nil.
Qed.

Lemma guard_passes_after_init_witness :
  result (assertPackagingFormatInitialized (format_name LinuxDeb))
         (final (init LinuxDeb "my-app") Demo.fresh) = Ret tt /\
  printed (assertPackagingFormatInitialized (format_name LinuxDeb))
          (final (init LinuxDeb "my-app") Demo.fresh) = [] /\
  fs (final (assertPackagingFormatInitialized (format_name LinuxDeb))
            (final (init LinuxDeb "my-app") Demo.fresh))
  = fs (final (init LinuxDeb "my-app") Demo.fresh).
Proof.
  apply (guard_passes_after_init LinuxDeb "my-app" Demo.fresh).
  - vm_compute. reflexivity.
  - intros n. reflexivity.
Defined.

(** ** The author of the deb *)

Lemma reply_UserCurrent_unknown (w : World) :
  current_user w = None -> failed (fst (fst (reply w UserCurrent))) = true.
Proof.
  intros H. unfold reply. destruct (faults w _ _); [reflexivity|].
  cbn [kernel fst]. now rewrite H.
Qed.


(** Run up to the lookup of the user. *)
Ltac run_to_lookup :=
  repeat (wsimpl;
          lazymatch goal with
          | |- wp (sys UserCurrent) _ _ => fail
          | |- wp _ _ _ => run_step
          end).

(** X15: the deb scaffolding of a project without an author, on a host
    where the current user cannot be looked up, stops at the lookup: it
    exits with status 1 after the warning about the missing author and
    the diagnostic of the lookup, and it has neither probed nor
    touched the disk. *)
Theorem deb_stops_without_user (name : string) (w : World) (ps : PubSpec) :
  on_linux w ->
  pubspec w = Some ps ->
  Author ps = "" ->
  current_user w = None ->
  result (initLinuxDeb name) w = Exit 1 /\
  fs (final (initLinuxDeb name) w) = fs w /\
  exists e,
    events (initLinuxDeb name) w = [(UserCurrent, Fail e)] /\
    printed (initLinuxDeb name) w
    = [ missing_author_message ++ nl;
        "hover: Couldn't get current user: " ++ error_text e ++ nl ].
Proof.
  intros Hos Hp Ha Hu.
  assert (Hd : negb (GOOS w =? nth 0 (strings.Split "linux-deb" "-") "") = false).
  { change (nth 0 (strings.Split "linux-deb" "-") "") with "linux".
    unfold on_linux in Hos. rewrite Hos. reflexivity. }
  assert (Hb : (Author ps =? "") = true) by (now rewrite Ha).
  change (wp (initLinuxDeb name)
            (fun o w' =>
               o = Exit 1%Z /\ fs w' = fs w /\
               exists e,
                 skipn (List.length (trace w)) (trace w') = [(UserCurrent, Fail e)] /\
                 skipn (List.length (console w)) (console w')
                 = [ missing_author_message ++ nl;
                     "hover: Couldn't get current user: " ++ error_text e ++ nl ]) w).
  unfold initLinuxDeb.
  run_to_lookup.
  wsimpl.
  lazymatch goal with
  | |- wp (sys UserCurrent) _ ?w1 =>
      pose proof (reply_UserCurrent_unknown w1 Hu) as Hf
  end.
  eapply wp_sys_readonly_at; [reflexivity | trace_base |].
  intros a Hr. rewrite Hr in Hf.
  destruct a as [u|e]; [discriminate Hf|].
  run ltac:(idtac).
  wsimpl. split; [reflexivity|]. split; [reflexivity|]. exists e.
  rewrite <- ?app_assoc. cbn [app]. rewrite !skipn_app_length. split; reflexivity.
Qed.

Lemma deb_stops_without_user_witness :
  result (initLinuxDeb "my-app") Nobody.world = Exit 1 /\
  fs (final (initLinuxDeb "my-app") Nobody.world) = fs Nobody.world /\
  exists e,
    events (initLinuxDeb "my-app") Nobody.world = [(UserCurrent, Fail e)] /\
    printed (initLinuxDeb "my-app") Nobody.world
    = [ missing_author_message ++ nl;
        "hover: Couldn't get current user: " ++ error_text e ++ nl ].
Proof.
  apply (deb_stops_without_user "my-app" Nobody.world
           (mkPubSpec "my-app" "1.2.3" "" "demo")); reflexivity.
Defined.

(** ** Names without dashes and underscores *)

Lemma remove_byte_app (c : ascii) (a b : string) :
  remove_byte c (a ++ b) = remove_byte c a ++ remove_byte c b.
Proof.
  induction a as [|x a IH]; [reflexivity|].
  cbn [append remove_byte]. destruct (ascii_dec c x); [exact IH|].
  cbn [append]. now rewrite IH.
Qed.

Lemma remove_byte_length (c : ascii) (s : string) :
  String.length (remove_byte c s) <= String.length s.
Proof.
  induction s as [|x s IH]; [apply le_n|].
  cbn [remove_byte]. destruct (ascii_dec c x); cbn [String.length]; lia.
Qed.

(** X16: [removeDashesAndUnderscores] works byte by byte: the result
    for a concatenation is the concatenation of the results, and the
    result is never longer than the name. *)
Theorem removeDashesAndUnderscores_bytewise (a b : string) :
  removeDashesAndUnderscores (a ++ b)
  = removeDashesAndUnderscores a ++ removeDashesAndUnderscores b /\
  String.length (removeDashesAndUnderscores a) <= String.length a.
Proof.
  rewrite !removeDashesAndUnderscores_bytes. split.
  - now rewrite !remove_byte_app.
  - etransitivity; [apply remove_byte_length|apply remove_byte_length].
Qed.

(** X17: a name with neither a dash nor an underscore is left as it
    is. *)
Theorem removeDashesAndUnderscores_fixed (s : string) :
  strings.Contains s "-" = false ->
  strings.Contains s "_" = false ->
  removeDashesAndUnderscores s = s.
Proof.
  intros Hd Hu. rewrite removeDashesAndUnderscores_bytes.
  rewrite (remove_byte_fixed "-") by assumption.
  now apply remove_byte_fixed.
Qed.

Lemma removeDashesAndUnderscores_fixed_witness :
  removeDashesAndUnderscores "myapp2" = "myapp2".
Proof.
  apply (removeDashesAndUnderscores_fixed "myapp2"); reflexivity.
Defined.
